(** * FlightLab: the calculators of [tools/], embedded and verified

  The four tools of the repository are PySide6 windows around a few lines
  of arithmetic.  This development embeds the arithmetic and the event
  handlers that guard it:

  - [tools/flight_time_ui.py]            (module [FlightTime]),
  - [tools/calculate_params_ui.py]       (module [MotorEsc]),
  - [tools/calculate_power_system_ui.py] (module [PowerSystem]),
  - [tools/flight_measure_ui.py]         (module [BatterySim]).

  Numbers.  Python's [float] is modelled by the exact rationals [Q]:
  literals keep their decimal value ([0.8] is 8/10), the four operations
  are exact, and comparisons are the order of [Q].  Rounding, overflow to
  infinity and NaN are therefore outside the model; division by zero is
  inside it, as the [ZeroDivisionError] Python raises.  Python's [int] is
  [Z].  Equality of computed rationals is [Qeq] ([==]).  Where a statement
  is about rounding or overflow itself, module [Binary64] gives the
  flight-time function over IEEE 754 binary64, the [float] of Python, and
  the statement is settled there by evaluation.

  Widgets.  A [QLineEdit] is modelled by what [float(text.strip())] makes
  of its text, a formatted cell or label by the number and the precision
  handed to the format string, a message box by the outcome of the handler
  that opened it.  Layout, menus, themes and CSV export are not modelled.

  Time and chance.  [time.time()] and [random.random()] are inputs of the
  handlers that call them. *)

From stdpp Require Import gmap strings.
From Stdlib Require Import QArith Qround Qminmax Lqa ZArith Lia Sorted Floats.

Local Open Scope Q_scope.

(* ================================================================== *)
(** * Python values and exceptions                                     *)
(* ================================================================== *)

Module Py.

(** The exceptions the embedded code can raise. *)
Inductive exn : Type :=
| ValueError (msg : string)
| ZeroDivisionError
| AttributeError.

(** A computation that returns or raises. *)
Inductive result (A : Type) : Type :=
| Ok (a : A)
| Raise (e : exn).
Arguments Ok {A} a.
Arguments Raise {A} e.

Definition bind {A B : Type} (m : result A) (k : A -> result B) : result B :=
  match m with
  | Ok a => k a
  | Raise e => Raise e
  end.

(** [a < b], [a <= b], [a > b], [a >= b] and [a == b] on floats. *)
Definition ltb (a b : Q) : bool := negb (Qle_bool b a).
Definition leb (a b : Q) : bool := Qle_bool a b.
Definition gtb (a b : Q) : bool := ltb b a.
Definition geb (a b : Q) : bool := leb b a.
Definition eqb (a b : Q) : bool := Qeq_bool a b.

(** [max(a, b)]: the first argument stays unless the second is greater. *)
Definition max (a b : Q) : Q := if ltb a b then b else a.

(** [a / b] on floats. *)
Definition truediv (a b : Q) : result Q :=
  if eqb b 0 then Raise ZeroDivisionError else Ok (a / b).

(** [round(x)] to an [int]: to the nearest integer, ties to the even one. *)
Definition round (x : Q) : Z :=
  let f := Qfloor x in
  let d := x - inject_Z f in
  if ltb d 0.5 then f
  else if ltb 0.5 d then (f + 1)%Z
  else if Z.even f then f else (f + 1)%Z.

(** [int(x)] of a float: truncation towards zero. *)
Definition int (x : Q) : Z := if ltb x 0 then Qceiling x else Qfloor x.

(** [random.uniform(a, b)], which is [a + (b - a) * random()]; [u] is the
    value of [random()], a float of [0, 1). *)
Definition uniform (a b u : Q) : Q := a + (b - a) * u.

(** [[f(x) for x in xs]] where [f] may raise: left to right, the first
    exception ends the comprehension. *)
Fixpoint comprehension {A B : Type} (f : A -> result B) (xs : list A)
  : result (list B) :=
  match xs with
  | [] => Ok []
  | x :: xs' =>
      bind (f x) (fun y =>
      bind (comprehension f xs') (fun ys => Ok (y :: ys)))
  end.

End Py.

Notation "'let!' x ':=' m 'in' k" := (Py.bind m (fun x => k))
(at level 10, x name, m at level 100, k at level 200).

(* ================================================================== *)
(** * What the windows show and read                                   *)
(* ================================================================== *)

Module Gui.

(** The text of a [QLineEdit] as [float(text.strip())] sees it. *)
Inductive entry : Type :=
| Blank                 (* empty after [strip()] *)
| Garbage               (* [float] raises on it *)
| Numeral (q : Q).      (* [float] reads it as [q] *)

(** The changing part of a cell or label: a number under a fixed-point
    format ([f"{q:0.1f}"] is [Fixed 1 q]) or a literal text. *)
Inductive shown : Type :=
| Fixed (digits : nat) (q : Q)
| Text (s : string).

(** How a handler ends: normally, behind the [QMessageBox.critical] its
    [except ValueError] opens, or with an exception nobody catches. *)
Inductive outcome : Type :=
| Done
| ErrorBox (msg : string)
| Uncaught (e : Py.exn).

(** The parse helper [_f] that the windows share, word for word. *)
Definition _f (widget : entry) (label : string) : Py.result Q :=
  match widget with
  | Blank => Py.Raise (Py.ValueError (label ++ " is required."))
  | Garbage => Py.Raise (Py.ValueError (label ++ " must be a number."))
  | Numeral val =>
      if Py.ltb val 0
      then Py.Raise (Py.ValueError (label ++ " must be non-negative."))
      else Py.Ok val
  end.

(** [try: body  except ValueError as e: QMessageBox.critical(.., str(e))]
    around a handler body that yields the new window: the window is the
    old one when the body raised. *)
Definition try_except {W : Type} (old : W) (body : Py.result W) : W * outcome :=
  match body with
  | Py.Ok w => (w, Done)
  | Py.Raise (Py.ValueError msg) => (old, ErrorBox msg)
  | Py.Raise e => (old, Uncaught e)
  end.

End Gui.

(* ================================================================== *)
(** * tools/flight_time_ui.py                                          *)
(* ================================================================== *)

Module FlightTime.
Import Gui.

Definition calculate_flight_time
    (capacity_mAh avg_current_A : Q) (use_80_percent : bool) : Py.result Q :=
  let capacity_Ah := capacity_mAh / 1000.0 in
  let capacity_Ah := if use_80_percent then capacity_Ah * 0.8 else capacity_Ah in
  let! t := Py.truediv capacity_Ah (Py.max avg_current_A 1e-9) in
  Py.Ok (t * 60.0).

(** The value of the local [capacity_Ah] when the division is reached. *)
Definition capacity_Ah (capacity_mAh : Q) (use_80_percent : bool) : Q :=
  if use_80_percent then capacity_mAh / 1000.0 * 0.8 else capacity_mAh / 1000.0.

Definition series_flight_time_vs_capacity
    (capacities : list Q) (current_A : Q) (use_80_percent : bool)
  : Py.result (list Q) :=
  Py.comprehension
    (fun c => calculate_flight_time c current_A use_80_percent) capacities.

Definition series_flight_time_vs_current
    (currents : list Q) (capacity_mAh : Q) (use_80_percent : bool)
  : Py.result (list Q) :=
  Py.comprehension
    (fun i => calculate_flight_time capacity_mAh i use_80_percent) currents.

(** The part of [FlightTimeEstimator] that [_on_calculate] reads and
    writes: two line edits, the check box, the two-column result table
    and the status bar. *)
Record FlightTimeEstimator : Type := {
  capacity_mAh : entry;
  avg_current_A : entry;
  use_80 : bool;
  table : list (string * shown);
  status_bar : option string;
}.

Definition _populate_table (rows : list (string * shown))
    (self : FlightTimeEstimator) : FlightTimeEstimator :=
  {| capacity_mAh := capacity_mAh self;
     avg_current_A := avg_current_A self;
     use_80 := use_80 self;
     table := rows;
     status_bar := status_bar self |}.

Definition showMessage (msg : string)
    (self : FlightTimeEstimator) : FlightTimeEstimator :=
  {| capacity_mAh := capacity_mAh self;
     avg_current_A := avg_current_A self;
     use_80 := use_80 self;
     table := table self;
     status_bar := Some msg |}.

Definition _on_calculate (self : FlightTimeEstimator)
  : FlightTimeEstimator * outcome :=
  try_except self (
    let! cap := _f (capacity_mAh self) "Capacity (mAh)" in
    let! cur := _f (avg_current_A self) "Avg current (A)" in
    if Py.leb cur 0
    then Py.Raise (Py.ValueError "Avg current (A) must be > 0.")
    else
      let use80 := use_80 self in
      let! ft_min := calculate_flight_time cap cur use80 in
      let rows :=
        [ ("Capacity (mAh)"%string, Fixed 0 cap);
          ("Avg current (A)"%string, Fixed 2 cur);
          ("80% rule"%string, Text (if use80 then "On" else "Off"));
          ("Estimated flight time (min)"%string, Fixed 2 ft_min) ] in
      Py.Ok (showMessage "Calculated." (_populate_table rows self))).

End FlightTime.

(* ================================================================== *)
(** * tools/flight_time_ui.py in binary64                              *)
(* ================================================================== *)

Module Binary64.
#[local] Set Warnings "-inexact-float".
Local Open Scope float_scope.

(** [max(a, b)] on floats: the first argument stays unless the second is
    greater. *)
Definition max (a b : float) : float := if PrimFloat.ltb a b then b else a.

(** [a / b] on floats: [ZeroDivisionError] on a zero divisor, of either
    sign, and the IEEE quotient otherwise. *)
Definition truediv (a b : float) : Py.result float :=
  if PrimFloat.eqb b 0 then Py.Raise Py.ZeroDivisionError else Py.Ok (a / b).

Definition calculate_flight_time
    (capacity_mAh avg_current_A : float) (use_80_percent : bool)
  : Py.result float :=
  let capacity_Ah := capacity_mAh / 1000.0 in
  let capacity_Ah := if use_80_percent then capacity_Ah * 0.8 else capacity_Ah in
  let! t := truediv capacity_Ah (max avg_current_A 1e-9) in
  Py.Ok (t * 60.0).

End Binary64.

(* ================================================================== *)
(** * tools/calculate_params_ui.py                                     *)
(* ================================================================== *)

Module MotorEsc.

(** One result dict; its six keys are the fields. *)
Record row : Type := {
  KV : Z;
  Voltage : Q;
  RPM : Q;
  Torque : string;
  Power : Q;
  ESC_Recommendation : Z;
}.

(** The body of the inner loop: the dict appended for one [kv] and one
    [voltage]. *)
Definition result_for (current_draws : gmap Z Q) (kv : Z) (voltage : Q) : row :=
  let rpm := inject_Z kv * voltage in
  let torque :=
    if (2000 <=? kv)%Z then "Low"%string
    else if ((1000 <=? kv)%Z && (kv <? 2000)%Z)%bool then "Medium"%string
    else "High"%string in
  let current := default 0.0 (current_draws !! kv) in
  let power := voltage * current in
  let esc_rating := Py.round (current * 1.2) in
  {| KV := kv;
     Voltage := voltage;
     RPM := rpm;
     Torque := torque;
     Power := power;
     ESC_Recommendation := esc_rating |}.

(** The two nested [for] loops, each turn appending to [results]. *)
Definition calculate_motor_esc_params
    (kv_ratings : list Z) (battery_voltages : list Q)
    (current_draws : gmap Z Q) : list row :=
  fold_left
    (fun results kv =>
       fold_left
         (fun results voltage =>
            results ++ [result_for current_draws kv voltage])
         battery_voltages results)
    kv_ratings [].

(** ** The table as the specification words it

    The torque category by the three bands of the specification, the row
    by its four formulas, and the table as the rows of the cartesian
    product of the two lists. *)
Inductive category : Type := High | Medium | Low.

Definition category_name (c : category) : string :=
  match c with
  | High => "High"
  | Medium => "Medium"
  | Low => "Low"
  end.

Definition torque_category (kv : Z) : category :=
  if (kv <? 1000)%Z then High
  else if (kv <? 2000)%Z then Medium
  else Low.

Definition current_for (currentByKv : gmap Z Q) (kv : Z) : Q :=
  match currentByKv !! kv with
  | Some c => c
  | None => 0.0
  end.

Definition spec_row (currentByKv : gmap Z Q) (kv : Z) (voltage : Q) : row :=
  {| KV := kv;
     Voltage := voltage;
     RPM := inject_Z kv * voltage;
     Torque := category_name (torque_category kv);
     Power := voltage * current_for currentByKv kv;
     ESC_Recommendation := Py.round (current_for currentByKv kv * 1.2) |}.

Definition motorEscTable
    (kvList : list Z) (voltageList : list Q) (currentByKv : gmap Z Q)
  : list row :=
  map (fun p => spec_row currentByKv (fst p) (snd p))
      (list_prod kvList voltageList).

End MotorEsc.

(* ================================================================== *)
(** * tools/calculate_power_system_ui.py                               *)
(* ================================================================== *)

Module PowerSystem.
Import Gui.

Definition recommend_power (weight_kg : Q) (flight_type : string) : Q :=
  if String.eqb flight_type "glider" then weight_kg * 65
  else if String.eqb flight_type "aerobatic" then weight_kg * 200
  else weight_kg * 120.

Definition motor_efficiency_output (input_power efficiency_percent : Q) : Q :=
  input_power * (efficiency_percent / 100.0).

Definition motor_weight_from_power (power_watt efficiency : Q) : Q :=
  let factor := if Py.leb efficiency 70 then 3 else 5 in
  power_watt / factor.

Definition battery_voltage_from_wingspan_cm (cm : Q) : Q :=
  if Py.ltb cm 100 then 11.1
  else if Py.ltb cm 140 then 14.8
  else if Py.ltb cm 175 then 22.2
  else if Py.ltb cm 215 then 29.6
  else if Py.ltb cm 245 then 37.0
  else 44.4.

Definition prop_pitch_speed (pitch_cm rpm : Q) : Q :=
  (pitch_cm * rpm) / 60000.0.

(** The dict of [thrust_check], which always has these three keys. *)
Record thrust_eval : Type := {
  hover : bool;
  takeoff : bool;
  climb : bool;
}.

Definition thrust_check (thrust_g plane_weight_g : Q) : thrust_eval :=
  {| hover := Py.geb thrust_g plane_weight_g;
     takeoff := Py.geb thrust_g (0.5 * plane_weight_g);
     climb := Py.geb thrust_g (0.33 * plane_weight_g) |}.

Definition esc_rating (max_current : Q) : Q := max_current * 1.2.

Definition battery_discharge_check (capacity_mah c_rating load_current : Q) : bool :=
  let max_safe_continuous := (capacity_mah * c_rating * 0.6) / 1000.0 in
  Py.leb load_current max_safe_continuous.

(** The inputs of [PlanePowerCalculator] and its two-column result
    table. *)
Record PlanePowerCalculator : Type := {
  weight_kg : entry;
  wingspan_cm : entry;
  flight_type : string;
  efficiency_pct : entry;
  pitch_cm : entry;
  rpm : entry;
  thrust_g : entry;
  max_current_a : entry;
  batt_capacity_mah : entry;
  c_rate : entry;
  table : list (string * shown);
  status_bar : option string;
}.

Definition _pct (widget : entry) (label : string) : Py.result Q :=
  let! val := _f widget label in
  if negb (Py.ltb 0 val && Py.leb val 100)
  then Py.Raise (Py.ValueError (label ++ " must be in (0, 100]."))
  else Py.Ok val.

Definition ok_no (b : bool) : shown := Text (if b then "OK" else "No").

Definition _populate (rows : list (string * shown))
    (self : PlanePowerCalculator) : PlanePowerCalculator :=
  {| weight_kg := weight_kg self;
     wingspan_cm := wingspan_cm self;
     flight_type := flight_type self;
     efficiency_pct := efficiency_pct self;
     pitch_cm := pitch_cm self;
     rpm := rpm self;
     thrust_g := thrust_g self;
     max_current_a := max_current_a self;
     batt_capacity_mah := batt_capacity_mah self;
     c_rate := c_rate self;
     table := rows;
     status_bar := status_bar self |}.

Definition showMessage (msg : string)
    (self : PlanePowerCalculator) : PlanePowerCalculator :=
  {| weight_kg := weight_kg self;
     wingspan_cm := wingspan_cm self;
     flight_type := flight_type self;
     efficiency_pct := efficiency_pct self;
     pitch_cm := pitch_cm self;
     rpm := rpm self;
     thrust_g := thrust_g self;
     max_current_a := max_current_a self;
     batt_capacity_mah := batt_capacity_mah self;
     c_rate := c_rate self;
     table := table self;
     status_bar := Some msg |}.

Definition _on_calculate (self : PlanePowerCalculator)
  : PlanePowerCalculator * outcome :=
  try_except self (
    let! weight := _f (weight_kg self) "Weight (kg)" in
    let! wingspan := _f (wingspan_cm self) "Wingspan (cm)" in
    let! eff := _pct (efficiency_pct self) "Efficiency (%)" in
    let! pitch := _f (pitch_cm self) "Prop pitch (cm)" in
    let! rpm_ := _f (rpm self) "RPM" in
    let! thrust := _f (thrust_g self) "Static thrust (g)" in
    let! max_i := _f (max_current_a self) "Max current (A)" in
    let! cap := _f (batt_capacity_mah self) "Capacity (mAh)" in
    let! c_rate_ := _f (c_rate self) "C-rate" in
    let ftype := flight_type self in
    let input_power := recommend_power weight ftype in
    let output_power := motor_efficiency_output input_power eff in
    let est_motor_weight := motor_weight_from_power input_power eff in
    let rec_voltage := battery_voltage_from_wingspan_cm wingspan in
    let p_speed := prop_pitch_speed pitch rpm_ in
    let t_eval := thrust_check thrust (weight * 1000.0) in
    let esc_rec := esc_rating max_i in
    let batt_ok := battery_discharge_check cap c_rate_ max_i in
    let results :=
      [ ("Required input power (W)"%string, Fixed 1 input_power);
        ("Expected shaft output power (W)"%string, Fixed 1 output_power);
        ("Estimated motor weight (g)"%string, Fixed 1 est_motor_weight);
        ("Recommended battery voltage (V)"%string, Fixed 1 rec_voltage);
        ("Static pitch speed (m/s)"%string, Fixed 2 p_speed);
        ("Thrust: hover"%string, ok_no (hover t_eval));
        ("Thrust: takeoff"%string, ok_no (takeoff t_eval));
        ("Thrust: climb"%string, ok_no (climb t_eval));
        ("ESC recommendation (A)"%string, Fixed 1 esc_rec);
        ("Battery safe (continuous)"%string, ok_no batt_ok) ] in
    Py.Ok (showMessage "Calculated." (_populate results self))).

(** [_on_clear]: the table emptied, the nine line edits cleared, the combo
    box back on its first item, ["trainer"], the status bar cleared. *)
Definition _on_clear (self : PlanePowerCalculator) : PlanePowerCalculator :=
  {| weight_kg := Blank;
     wingspan_cm := Blank;
     flight_type := "trainer";
     efficiency_pct := Blank;
     pitch_cm := Blank;
     rpm := Blank;
     thrust_g := Blank;
     max_current_a := Blank;
     batt_capacity_mah := Blank;
     c_rate := Blank;
     table := [];
     status_bar := None |}.

(** The nine numbers [_on_calculate] lets through: every field a
    non-negative number, the efficiency in (0, 100]. *)
Definition accepted (self : PlanePowerCalculator)
    (weight wingspan eff pitch rpm_ thrust max_i cap c_rate_ : Q) : Prop :=
  (weight_kg self = Numeral weight /\ 0 <= weight)
  /\ (wingspan_cm self = Numeral wingspan /\ 0 <= wingspan)
  /\ (efficiency_pct self = Numeral eff /\ 0 < eff /\ eff <= 100)
  /\ (pitch_cm self = Numeral pitch /\ 0 <= pitch)
  /\ (rpm self = Numeral rpm_ /\ 0 <= rpm_)
  /\ (thrust_g self = Numeral thrust /\ 0 <= thrust)
  /\ (max_current_a self = Numeral max_i /\ 0 <= max_i)
  /\ (batt_capacity_mah self = Numeral cap /\ 0 <= cap)
  /\ (c_rate self = Numeral c_rate_ /\ 0 <= c_rate_).

End PowerSystem.

(* ================================================================== *)
(** * tools/flight_measure_ui.py                                       *)
(* ================================================================== *)

Module BatterySim.
Import Gui.

(** The six configuration widgets. *)
Record Form : Type := {
  capacity_mAh : entry;
  use_80 : bool;
  sampling_s : entry;
  duration_s : entry;
  i_min_a : entry;
  i_max_a : entry;
}.

(** The five labels of the status row. *)
Record Labels : Type := {
  status_time : shown;
  status_current : shown;
  status_consumed : shown;
  status_remaining : shown;
  status_eta : shown;
}.

(** The attributes that only [_on_start] creates. *)
Record Attrs : Type := {
  sampling_interval_s : Q;
  sim_duration_s : Q;
  i_min : Q;
  i_max : Q;
}.

Record QTimer : Type := {
  isActive : bool;
  interval : Z;      (* milliseconds *)
}.

(** [BatterySimWindow]: the widgets the handlers touch (buttons and
    inputs by their enabled flag), the timer, and the simulation state of
    [__init__].  [attrs] is [None] until [_on_start] assigns the four
    attributes together. *)
Record BatterySimWindow : Type := {
  form : Form;
  inputs_enabled : bool;
  start_btn : bool;
  pause_btn : bool;
  labels : Labels;
  table : list (list shown);
  status_bar : option string;
  timer : QTimer;
  running : bool;
  start_time : Q;
  last_time : Q;
  total_elapsed_s : Q;
  consumed_mAh : Q;
  effective_capacity_mAh : Q;
  records : list (Q * Q * Q * Q * Q);
  attrs : option Attrs;
}.

(** Assignment to one attribute of [self]. *)
Definition set_form (v : Form) (self : BatterySimWindow) : BatterySimWindow :=
  {| form := v; inputs_enabled := inputs_enabled self;
     start_btn := start_btn self; pause_btn := pause_btn self;
     labels := labels self; table := table self;
     status_bar := status_bar self; timer := timer self;
     running := running self; start_time := start_time self;
     last_time := last_time self;
     total_elapsed_s := total_elapsed_s self;
     consumed_mAh := consumed_mAh self;
     effective_capacity_mAh := effective_capacity_mAh self;
     records := records self; attrs := attrs self |}.

Definition set_inputs_enabled (v : bool) (self : BatterySimWindow) : BatterySimWindow :=
  {| form := form self; inputs_enabled := v;
     start_btn := start_btn self; pause_btn := pause_btn self;
     labels := labels self; table := table self;
     status_bar := status_bar self; timer := timer self;
     running := running self; start_time := start_time self;
     last_time := last_time self;
     total_elapsed_s := total_elapsed_s self;
     consumed_mAh := consumed_mAh self;
     effective_capacity_mAh := effective_capacity_mAh self;
     records := records self; attrs := attrs self |}.

Definition set_start_btn (v : bool) (self : BatterySimWindow) : BatterySimWindow :=
  {| form := form self; inputs_enabled := inputs_enabled self;
     start_btn := v; pause_btn := pause_btn self; labels := labels self;
     table := table self; status_bar := status_bar self;
     timer := timer self; running := running self;
     start_time := start_time self; last_time := last_time self;
     total_elapsed_s := total_elapsed_s self;
     consumed_mAh := consumed_mAh self;
     effective_capacity_mAh := effective_capacity_mAh self;
     records := records self; attrs := attrs self |}.

Definition set_pause_btn (v : bool) (self : BatterySimWindow) : BatterySimWindow :=
  {| form := form self; inputs_enabled := inputs_enabled self;
     start_btn := start_btn self; pause_btn := v; labels := labels self;
     table := table self; status_bar := status_bar self;
     timer := timer self; running := running self;
     start_time := start_time self; last_time := last_time self;
     total_elapsed_s := total_elapsed_s self;
     consumed_mAh := consumed_mAh self;
     effective_capacity_mAh := effective_capacity_mAh self;
     records := records self; attrs := attrs self |}.

Definition set_labels (v : Labels) (self : BatterySimWindow) : BatterySimWindow :=
  {| form := form self; inputs_enabled := inputs_enabled self;
     start_btn := start_btn self; pause_btn := pause_btn self;
     labels := v; table := table self; status_bar := status_bar self;
     timer := timer self; running := running self;
     start_time := start_time self; last_time := last_time self;
     total_elapsed_s := total_elapsed_s self;
     consumed_mAh := consumed_mAh self;
     effective_capacity_mAh := effective_capacity_mAh self;
     records := records self; attrs := attrs self |}.

Definition set_table (v : list (list shown)) (self : BatterySimWindow) : BatterySimWindow :=
  {| form := form self; inputs_enabled := inputs_enabled self;
     start_btn := start_btn self; pause_btn := pause_btn self;
     labels := labels self; table := v; status_bar := status_bar self;
     timer := timer self; running := running self;
     start_time := start_time self; last_time := last_time self;
     total_elapsed_s := total_elapsed_s self;
     consumed_mAh := consumed_mAh self;
     effective_capacity_mAh := effective_capacity_mAh self;
     records := records self; attrs := attrs self |}.

Definition set_status_bar (v : option string) (self : BatterySimWindow) : BatterySimWindow :=
  {| form := form self; inputs_enabled := inputs_enabled self;
     start_btn := start_btn self; pause_btn := pause_btn self;
     labels := labels self; table := table self; status_bar := v;
     timer := timer self; running := running self;
     start_time := start_time self; last_time := last_time self;
     total_elapsed_s := total_elapsed_s self;
     consumed_mAh := consumed_mAh self;
     effective_capacity_mAh := effective_capacity_mAh self;
     records := records self; attrs := attrs self |}.

Definition set_timer (v : QTimer) (self : BatterySimWindow) : BatterySimWindow :=
  {| form := form self; inputs_enabled := inputs_enabled self;
     start_btn := start_btn self; pause_btn := pause_btn self;
     labels := labels self; table := table self;
     status_bar := status_bar self; timer := v; running := running self;
     start_time := start_time self; last_time := last_time self;
     total_elapsed_s := total_elapsed_s self;
     consumed_mAh := consumed_mAh self;
     effective_capacity_mAh := effective_capacity_mAh self;
     records := records self; attrs := attrs self |}.

Definition set_running (v : bool) (self : BatterySimWindow) : BatterySimWindow :=
  {| form := form self; inputs_enabled := inputs_enabled self;
     start_btn := start_btn self; pause_btn := pause_btn self;
     labels := labels self; table := table self;
     status_bar := status_bar self; timer := timer self; running := v;
     start_time := start_time self; last_time := last_time self;
     total_elapsed_s := total_elapsed_s self;
     consumed_mAh := consumed_mAh self;
     effective_capacity_mAh := effective_capacity_mAh self;
     records := records self; attrs := attrs self |}.

Definition set_start_time (v : Q) (self : BatterySimWindow) : BatterySimWindow :=
  {| form := form self; inputs_enabled := inputs_enabled self;
     start_btn := start_btn self; pause_btn := pause_btn self;
     labels := labels self; table := table self;
     status_bar := status_bar self; timer := timer self;
     running := running self; start_time := v;
     last_time := last_time self;
     total_elapsed_s := total_elapsed_s self;
     consumed_mAh := consumed_mAh self;
     effective_capacity_mAh := effective_capacity_mAh self;
     records := records self; attrs := attrs self |}.

Definition set_last_time (v : Q) (self : BatterySimWindow) : BatterySimWindow :=
  {| form := form self; inputs_enabled := inputs_enabled self;
     start_btn := start_btn self; pause_btn := pause_btn self;
     labels := labels self; table := table self;
     status_bar := status_bar self; timer := timer self;
     running := running self; start_time := start_time self;
     last_time := v; total_elapsed_s := total_elapsed_s self;
     consumed_mAh := consumed_mAh self;
     effective_capacity_mAh := effective_capacity_mAh self;
     records := records self; attrs := attrs self |}.

Definition set_total_elapsed_s (v : Q) (self : BatterySimWindow) : BatterySimWindow :=
  {| form := form self; inputs_enabled := inputs_enabled self;
     start_btn := start_btn self; pause_btn := pause_btn self;
     labels := labels self; table := table self;
     status_bar := status_bar self; timer := timer self;
     running := running self; start_time := start_time self;
     last_time := last_time self; total_elapsed_s := v;
     consumed_mAh := consumed_mAh self;
     effective_capacity_mAh := effective_capacity_mAh self;
     records := records self; attrs := attrs self |}.

Definition set_consumed_mAh (v : Q) (self : BatterySimWindow) : BatterySimWindow :=
  {| form := form self; inputs_enabled := inputs_enabled self;
     start_btn := start_btn self; pause_btn := pause_btn self;
     labels := labels self; table := table self;
     status_bar := status_bar self; timer := timer self;
     running := running self; start_time := start_time self;
     last_time := last_time self;
     total_elapsed_s := total_elapsed_s self; consumed_mAh := v;
     effective_capacity_mAh := effective_capacity_mAh self;
     records := records self; attrs := attrs self |}.

Definition set_effective_capacity_mAh (v : Q) (self : BatterySimWindow) : BatterySimWindow :=
  {| form := form self; inputs_enabled := inputs_enabled self;
     start_btn := start_btn self; pause_btn := pause_btn self;
     labels := labels self; table := table self;
     status_bar := status_bar self; timer := timer self;
     running := running self; start_time := start_time self;
     last_time := last_time self;
     total_elapsed_s := total_elapsed_s self;
     consumed_mAh := consumed_mAh self; effective_capacity_mAh := v;
     records := records self; attrs := attrs self |}.

Definition set_records (v : list (Q * Q * Q * Q * Q)) (self : BatterySimWindow) : BatterySimWindow :=
  {| form := form self; inputs_enabled := inputs_enabled self;
     start_btn := start_btn self; pause_btn := pause_btn self;
     labels := labels self; table := table self;
     status_bar := status_bar self; timer := timer self;
     running := running self; start_time := start_time self;
     last_time := last_time self;
     total_elapsed_s := total_elapsed_s self;
     consumed_mAh := consumed_mAh self;
     effective_capacity_mAh := effective_capacity_mAh self;
     records := v; attrs := attrs self |}.

Definition set_attrs (v : option Attrs) (self : BatterySimWindow) : BatterySimWindow :=
  {| form := form self; inputs_enabled := inputs_enabled self;
     start_btn := start_btn self; pause_btn := pause_btn self;
     labels := labels self; table := table self;
     status_bar := status_bar self; timer := timer self;
     running := running self; start_time := start_time self;
     last_time := last_time self;
     total_elapsed_s := total_elapsed_s self;
     consumed_mAh := consumed_mAh self;
     effective_capacity_mAh := effective_capacity_mAh self;
     records := records self; attrs := v |}.

(** ** Helpers *)

Definition showMessage (msg : string) (self : BatterySimWindow) : BatterySimWindow :=
  set_status_bar (Some msg) self.

Definition _set_inputs_enabled (enabled : bool) (self : BatterySimWindow)
  : BatterySimWindow :=
  set_inputs_enabled enabled self.

(** The ETA cell of the table: two dashes from the sentinel upwards. *)
Definition eta_cell (eta : Q) : shown :=
  if Py.geb eta 9999 then Text "--" else Fixed 1 eta.

(** The ETA label of the status row. *)
Definition eta_label (eta : Q) : shown :=
  if Py.ltb eta 9999 then Fixed 1 eta else Text "--".

Definition _append_row (t i used rem eta : Q) (self : BatterySimWindow)
  : BatterySimWindow :=
  let vals := [Fixed 1 t; Fixed 2 i; Fixed 1 used; Fixed 1 rem; eta_cell eta] in
  set_table (table self ++ [vals]) self.

(** The status row as [_build_ui] creates it and [_on_reset] rewrites
    it: ["t: 0.0 s"], ["I: 0.00 A"], ["Used: 0.0 mAh"], ["Rem: 0.0 mAh"],
    ["ETA: -- min"]. *)
Definition initial_labels : Labels :=
  {| status_time := Fixed 1 0.0;
     status_current := Fixed 2 0.0;
     status_consumed := Fixed 1 0.0;
     status_remaining := Fixed 1 0.0;
     status_eta := Text "--" |}.

(** ** The window after [__init__]: the defaults of [_build_ui] in the
    widgets, the simulation state zeroed, the timer idle. *)
Definition __init__ : BatterySimWindow :=
  {| form := {| capacity_mAh := Numeral 1500;
                use_80 := true;
                sampling_s := Numeral 0.1;
                duration_s := Numeral 120;
                i_min_a := Numeral 2.0;
                i_max_a := Numeral 10.0 |};
     inputs_enabled := true;
     start_btn := true;
     pause_btn := false;
     labels := initial_labels;
     table := [];
     status_bar := None;
     timer := {| isActive := false; interval := 0 |};
     running := false;
     start_time := 0.0;
     last_time := 0.0;
     total_elapsed_s := 0.0;
     consumed_mAh := 0.0;
     effective_capacity_mAh := 0.0;
     records := [];
     attrs := None |}.

(** ** Actions *)

(** The [try] block of [_on_start]: the five numbers, or the
    [ValueError]. *)
Definition read_config (self : BatterySimWindow)
  : Py.result (Q * Q * Q * Q * Q) :=
  let! cap := _f (capacity_mAh (form self)) "Capacity (mAh)" in
  let! samp := _f (sampling_s (form self)) "Sampling (s)" in
  let! dur := _f (duration_s (form self)) "Duration (s)" in
  let! i_min := _f (i_min_a (form self)) "Current min (A)" in
  let! i_max := _f (i_max_a (form self)) "Current max (A)" in
  if Py.ltb i_max i_min
  then Py.Raise (Py.ValueError "Current max (A) must be >= Current min (A).")
  else Py.Ok (cap, samp, dur, i_min, i_max).

(** [now] is the value of [time.time()]. *)
Definition _on_start (now : Q) (self : BatterySimWindow)
  : BatterySimWindow * outcome :=
  match read_config self with
  | Py.Raise (Py.ValueError msg) => (self, ErrorBox msg)
  | Py.Raise e => (self, Uncaught e)
  | Py.Ok (cap, samp, dur, i_min, i_max) =>
      let self :=
        set_effective_capacity_mAh
          (cap * (if use_80 (form self) then 0.8 else 1.0)) self in
      let self :=
        set_attrs (Some {| sampling_interval_s := samp;
                           sim_duration_s := dur;
                           i_min := i_min;
                           i_max := i_max |}) self in
      let self :=
        if negb (running self) then
          if Py.eqb (start_time self) 0.0 then
            (* first start *)
            let self := set_start_time now self in
            let self := set_last_time now self in
            let self := set_total_elapsed_s 0.0 self in
            let self := set_consumed_mAh 0.0 self in
            let self := set_records [] self in
            set_table [] self
          else
            (* resume from pause *)
            set_last_time now self
        else self in
      let self := _set_inputs_enabled false self in
      let self := set_start_btn false self in
      let self := set_pause_btn true self in
      let self := set_running true self in
      let self :=
        set_timer {| isActive := true; interval := Py.int (samp * 1000) |} self in
      (self, Done)
  end.

Definition timer_stop (self : BatterySimWindow) : BatterySimWindow :=
  set_timer {| isActive := false; interval := interval (timer self) |} self.

Definition _on_pause (self : BatterySimWindow) : BatterySimWindow :=
  if negb (running self) then self
  else
    let self := set_running false self in
    let self := timer_stop self in
    let self := set_start_btn true self in
    let self := set_pause_btn false self in
    _set_inputs_enabled true self.

Definition _on_reset (self : BatterySimWindow) : BatterySimWindow :=
  let self := set_running false self in
  let self := timer_stop self in
  let self := set_start_time 0.0 self in
  let self := set_last_time 0.0 self in
  let self := set_total_elapsed_s 0.0 self in
  let self := set_consumed_mAh 0.0 self in
  let self := set_records [] self in
  let self := set_table [] self in
  let self := set_labels initial_labels self in
  let self := set_start_btn true self in
  let self := set_pause_btn false self in
  let self := _set_inputs_enabled true self in
  set_status_bar None self.

(** Step 5) of [_on_tick]: the estimate of the flight time left. *)
Definition flight_time_left_min (remaining_mAh current_A : Q) : Py.result Q :=
  if Py.gtb current_A 0.1 then
    let! flight_time_left_h := Py.truediv (remaining_mAh / 1000.0) current_A in
    Py.Ok (flight_time_left_h * 60.0)
  else Py.Ok 9999.0.

(** [now] is the value of [time.time()], [u] that of the [random()]
    behind [random.uniform]. *)
Definition _on_tick (now u : Q) (self : BatterySimWindow)
  : BatterySimWindow * outcome :=
  let elapsed_s := now - last_time self in
  let self := set_total_elapsed_s (now - start_time self) self in
  match attrs self with
  | None => (self, Uncaught Py.AttributeError)
  | Some a =>
      (* Stop on duration *)
      if Py.geb (total_elapsed_s self) (sim_duration_s a) then
        let self := showMessage "Reached simulation duration." self in
        (_on_pause self, Done)
      else if Py.ltb (elapsed_s + 1e-9) (sampling_interval_s a) then
        (self, Done)  (* wait until interval boundary *)
      else
        (* 1) random current *)
        let current_A := Py.uniform (i_min a) (i_max a) u in
        (* 2) elapsed hours *)
        let elapsed_h := elapsed_s / 3600.0 in
        (* 3) mAh used in this interval *)
        let used_mAh := current_A * elapsed_h * 1000.0 in
        (* 4) update totals *)
        let self := set_consumed_mAh (consumed_mAh self + used_mAh) self in
        let remaining_mAh :=
          Py.max (effective_capacity_mAh self - consumed_mAh self) 0.0 in
        (* 5) ETA *)
        match flight_time_left_min remaining_mAh current_A with
        | Py.Raise e => (self, Uncaught e)
        | Py.Ok eta =>
            (* 6) append row *)
            let self :=
              _append_row (total_elapsed_s self) current_A (consumed_mAh self)
                          remaining_mAh eta self in
            (* 7) status labels *)
            let self :=
              set_labels {| status_time := Fixed 1 (total_elapsed_s self);
                            status_current := Fixed 2 current_A;
                            status_consumed := Fixed 1 (consumed_mAh self);
                            status_remaining := Fixed 1 remaining_mAh;
                            status_eta := eta_label eta |} self in
            (* 8) depletion stop *)
            if Py.leb remaining_mAh 0.0 then
              let self := showMessage "Battery effectively depleted." self in
              (_on_pause self, Done)
            else
              (set_last_time now self, Done)
        end
  end.

(** ** The event loop

    What can happen to the window: a click on one of the three buttons,
    the timer firing, the user retyping the form.  Qt delivers a click
    only from an enabled button, a timeout only from an active timer and
    an edit only to enabled inputs. *)
Inductive event : Type :=
| Click_start (now : Q)
| Click_pause
| Click_reset
| Timeout (now u : Q)
| Edit (f : Form).

Definition handle (e : event) (self : BatterySimWindow)
  : BatterySimWindow * outcome :=
  match e with
  | Click_start now =>
      if start_btn self then _on_start now self else (self, Done)
  | Click_pause =>
      if pause_btn self then (_on_pause self, Done) else (self, Done)
  | Click_reset => (_on_reset self, Done)
  | Timeout now u =>
      if isActive (timer self) then _on_tick now u self else (self, Done)
  | Edit f =>
      if inputs_enabled self then (set_form f self, Done) else (self, Done)
  end.

(** The clock reading and the random number an event carries. *)
Definition reading (e : event) : option Q :=
  match e with
  | Click_start now | Timeout now _ => Some now
  | _ => None
  end.

Definition chance (e : event) : option Q :=
  match e with
  | Timeout _ u => Some u
  | _ => None
  end.

(** [reachable t self]: the window [self] can be reached from [__init__]
    with the clock at [t], where the clock never runs backwards and every
    [random()] lies in [0, 1). *)
Inductive reachable : Q -> BatterySimWindow -> Prop :=
| reach_init t :
    0 <= t -> reachable t __init__
| reach_wait t t' self :
    reachable t self -> t <= t' -> reachable t' self
| reach_step t self e :
    reachable t self ->
    (forall now, reading e = Some now -> now == t) ->
    (forall u, chance e = Some u -> 0 <= u /\ u < 1) ->
    reachable t (fst (handle e self)).

(** A burst of timeouts, each with its clock reading and its random
    number, delivered one after the other. *)
Fixpoint ticks (l : list (Q * Q)) (self : BatterySimWindow) : BatterySimWindow :=
  match l with
  | [] => self
  | (now, u) :: l' => ticks l' (fst (handle (Timeout now u) self))
  end.

(** The readings of a burst that starts at [t] do not decrease and its
    random numbers lie in [0, 1). *)
Fixpoint timed (t : Q) (l : list (Q * Q)) : Prop :=
  match l with
  | [] => True
  | (now, u) :: l' => t <= now /\ (0 <= u /\ u < 1) /\ timed now l'
  end.

(** The first two cells of a table row: the time and the current that
    [_append_row] was given. *)
Definition row_time (r : list shown) : option Q :=
  match r with
  | Fixed _ t :: _ => Some t
  | _ => None
  end.

Definition row_current (r : list shown) : option Q :=
  match r with
  | _ :: Fixed _ i :: _ => Some i
  | _ => None
  end.

(** ** Runs whose timer can be started

    [QTimer.start] takes a C [int] of milliseconds.  [_on_start] calls it
    last, outside its [try] and after [running = True]: with a sampling
    interval whose milliseconds do not fit, the call raises and the handler
    stops there.  The embedding of [_on_start] is that of the starts which
    complete; [startable] names the forms for which they do, and [reached]
    the windows that such starts, and any other events at any clock reading
    and with any random number, lead to. *)
Definition timer_max : Z := 2147483647.

Definition startable (self : BatterySimWindow) : Prop :=
  forall samp,
    sampling_s (form self) = Numeral samp -> samp * 1000 < inject_Z timer_max.

Inductive reached : BatterySimWindow -> Prop :=
| reached_init : reached __init__
| reached_step self e :
    reached self ->
    (forall now, e = Click_start now -> startable self) ->
    reached (fst (handle e self)).

(** ** What holds of every reachable window *)

(** The attributes as [_on_start] can leave them: [_f] refuses negative
    numbers and the guard refuses [i_max < i_min]. *)
Definition valid_attrs (a : Attrs) : Prop :=
  0 <= sampling_interval_s a /\ 0 <= sim_duration_s a
  /\ 0 <= i_min a /\ i_min a <= i_max a.

Definition invariant (t : Q) (self : BatterySimWindow) : Prop :=
  0 <= t
  /\ 0 <= consumed_mAh self
  /\ 0 <= effective_capacity_mAh self
  /\ last_time self <= t
  /\ (forall a, attrs self = Some a -> valid_attrs a)
  /\ (isActive (timer self) = true -> attrs self <> None)
  /\ isActive (timer self) = running self.

End BatterySim.

(** Arithmetic goals that mention the literal [1e-9]: all they need of it
  is that it is positive. *)
Ltac tiny :=
let eps := fresh "eps" in
let Heps := fresh "Heps" in
assert (0 < 1e-9) as Heps by reflexivity;
set (eps := 1e-9) in *; clearbody eps.

(* ================================================================== *)
(** * Facts about the Python layer                                     *)
(* ================================================================== *)

Section PyFacts.

Lemma lebP (a b : Q) : reflect (a <= b) (Py.leb a b).
Proof.
  unfold Py.leb. destruct (Qle_bool a b) eqn:E; constructor.
  - now apply Qle_bool_iff.
  - intros H. apply Qle_bool_iff in H. congruence.
Qed.

Lemma ltbP (a b : Q) : reflect (a < b) (Py.ltb a b).
Proof.
  unfold Py.ltb. change (Qle_bool b a) with (Py.leb b a).
  destruct (lebP b a) as [H|H]; constructor; lra.
Qed.

Lemma gtbP (a b : Q) : reflect (b < a) (Py.gtb a b).
Proof. apply ltbP. Qed.

Lemma gebP (a b : Q) : reflect (b <= a) (Py.geb a b).
Proof. apply lebP. Qed.

Lemma eqbP (a b : Q) : reflect (a == b) (Py.eqb a b).
Proof.
  unfold Py.eqb. destruct (Qeq_bool a b) eqn:E; constructor.
  - now apply Qeq_bool_iff.
  - intros H. apply Qeq_bool_iff in H. congruence.
Qed.


(** [max] of the code is the maximum of the order. *)
Lemma max_Qmax (a b : Q) : Py.max a b == Qmax a b.
Proof.
  unfold Py.max. destruct (ltbP a b) as [H|H].
  - symmetry. apply Q.max_r. lra.
  - symmetry. apply Q.max_l. lra.
Qed.

Lemma max_lower_l (a b : Q) : a <= Py.max a b.
Proof. unfold Py.max. destruct (ltbP a b); lra. Qed.

Lemma max_lower_r (a b : Q) : b <= Py.max a b.
Proof. unfold Py.max. destruct (ltbP a b); lra. Qed.

Lemma max_cases (a b : Q) :
  (a < b /\ Py.max a b = b) \/ (b <= a /\ Py.max a b = a).
Proof. unfold Py.max. destruct (ltbP a b); [left | right]; split; trivial; lra. Qed.

(** Division raises exactly on a zero divisor. *)
Lemma truediv_ok (a b : Q) : ~ b == 0 -> Py.truediv a b = Py.Ok (a / b).
Proof. intros H. unfold Py.truediv. now destruct (eqbP b 0). Qed.

Lemma truediv_zero (a b : Q) : b == 0 -> Py.truediv a b = Py.Raise Py.ZeroDivisionError.
Proof. intros H. unfold Py.truediv. now destruct (eqbP b 0). Qed.

(** A comprehension over a function that never raises returns one value
    per element, in order. *)
Lemma comprehension_total {A B : Type} (f : A -> Py.result B) (xs : list A) :
  (forall x, exists y, f x = Py.Ok y) ->
  exists ys, Py.comprehension f xs = Py.Ok ys
             /\ Forall2 (fun x y => f x = Py.Ok y) xs ys.
Proof.
  intros Hf. induction xs as [|x xs IH]; simpl.
  - exists []. split; [reflexivity | constructor].
  - destruct (Hf x) as [y Hy]. destruct IH as (ys & Hys & Hall).
    exists (y :: ys). rewrite Hy, Hys. simpl. split; [reflexivity|].
    now constructor.
Qed.

(** The parse helper: what it accepts is a non-negative number. *)
Lemma _f_ok (w : Gui.entry) (label : string) (v : Q) :
  Gui._f w label = Py.Ok v -> w = Gui.Numeral v /\ 0 <= v.
Proof.
  destruct w as [| |q]; simpl; try discriminate.
  destruct (ltbP q 0); try discriminate.
  intros [= ->]. split; [reflexivity | lra].
Qed.

Lemma _f_numeral (q : Q) (label : string) :
  0 <= q -> Gui._f (Gui.Numeral q) label = Py.Ok q.
Proof. intros H. simpl. destruct (ltbP q 0); [lra | reflexivity]. Qed.

Lemma _f_raises (w : Gui.entry) (label : string) (e : Py.exn) :
  Gui._f w label = Py.Raise e -> exists msg, e = Py.ValueError msg.
Proof.
  destruct w as [| |q]; simpl.
  - intros [= <-]. eauto.
  - intros [= <-]. eauto.
  - destruct (ltbP q 0); [|discriminate]. intros [= <-]. eauto.
Qed.

End PyFacts.

(* ================================================================== *)
(** * The flight-time estimator                                        *)
(* ================================================================== *)

Section FlightTimeFacts.
Import Gui FlightTime.

(** The divisor of the formula is never zero, so the function always
    returns. *)
Lemma calculate_flight_time_returns (cap avg : Q) (rule : bool) :
  calculate_flight_time cap avg rule
  = Py.Ok (capacity_Ah cap rule / Py.max avg 1e-9 * 60.0).
Proof.
  unfold calculate_flight_time, capacity_Ah.
  rewrite truediv_ok.
  - now destruct rule.
  - pose proof (max_lower_r avg 1e-9). tiny. lra.
Qed.

Lemma capacity_Ah_nonneg (cap : Q) (rule : bool) : 0 <= cap -> 0 <= capacity_Ah cap rule.
Proof.
  intros H. unfold capacity_Ah.
  assert (0 <= cap / 1000.0) by (apply Qle_shift_div_l; lra).
  destruct rule; lra.
Qed.

Lemma calculate_flight_time_nonneg (cap avg v : Q) (rule : bool) :
  0 <= cap -> calculate_flight_time cap avg rule = Py.Ok v -> 0 <= v.
Proof.
  intros Hcap. rewrite calculate_flight_time_returns. intros [= <-].
  pose proof (capacity_Ah_nonneg cap rule Hcap).
  pose proof (max_lower_r avg 1e-9). tiny.
  assert (0 <= capacity_Ah cap rule / Py.max avg eps) by (apply Qle_shift_div_l; lra).
  lra.
Qed.

(** The clamp of the divisor bounds the result. *)
Lemma calculate_flight_time_bounded (cap avg : Q) (rule : bool) :
  0 <= cap ->
  capacity_Ah cap rule / Py.max avg 1e-9 * 60.0 <= 60000000 * cap.
Proof.
  intros Hcap.
  pose proof (capacity_Ah_nonneg cap rule Hcap) as Hnn.
  assert (Hle : capacity_Ah cap rule <= cap / 1000.0).
  { unfold capacity_Ah.
    assert (0 <= cap / 1000.0) by (apply Qle_shift_div_l; lra).
    destruct rule; lra. }
  assert (Hcap' : cap / 1000.0 == cap * (1 # 1000))
    by (unfold Qdiv; apply Qmult_comp; reflexivity).
  pose proof (max_lower_r avg 1e-9) as Hmax.
  assert (Heps : 1 # 1000000000 <= Py.max avg 1e-9).
  { assert (1e-9 == 1 # 1000000000) as <- by reflexivity. exact Hmax. }
  set (d := Py.max avg 1e-9) in *.
  assert (Hq : capacity_Ah cap rule / d <= capacity_Ah cap rule * 1000000000).
  { apply Qle_shift_div_r; [lra|].
    assert (0 <= capacity_Ah cap rule * (1000000000 * d - 1))
      by (apply Qmult_le_0_compat; lra).
    lra. }
  lra.
Qed.

(** The scenario of the specification: 1500 mAh at 18 A under the 80% rule
    last 4 minutes. *)
Example flight_time_scenario :
  exists v, calculate_flight_time 1500 18 true = Py.Ok v /\ v == 4.
Proof. eexists. split; [reflexivity | now vm_compute]. Qed.

(** C1, the claim refuted: at [avgCurrent_A = 0] the flight-time function
    raises nothing and returns a number, 72 000 000 000 minutes for
    1500 mAh under the 80% rule. *)
Lemma flight_time_zero_current_returns :
  calculate_flight_time 1500 0 true <> Py.Raise Py.ZeroDivisionError
  /\ exists v, calculate_flight_time 1500 0 true = Py.Ok v /\ v == 72000000000.
Proof.
  rewrite calculate_flight_time_returns. split; [discriminate|].
  eexists. split; [reflexivity|]. vm_compute. reflexivity.
Qed.

(** C1, amended: for a current [avg <= 0] the function
    [calculate_flight_time] does not fail; it divides by the clamp [1e-9]
    and returns [(capacity_mAh/1000 * (0.8 if rule else 1) / 1e-9) * 60].
    The refusal is the caller's: [_on_calculate], reading such a current
    from its field, ends behind an error box and leaves the window, and
    with it the result table, as it was; with a valid capacity and the
    current 0 the message is the one of its [cur <= 0] guard. *)
Theorem flight_time_nonpositive_current
    (cap avg : Q) (rule : bool) (self : FlightTimeEstimator) :
  avg <= 0 ->
  calculate_flight_time cap avg rule = Py.Ok (capacity_Ah cap rule / 1e-9 * 60.0)
  /\ (avg_current_A self = Numeral avg ->
      exists msg,
        _on_calculate self = (self, ErrorBox msg)
        /\ (capacity_mAh self = Numeral cap -> 0 <= cap -> 0 <= avg ->
            msg = "Avg current (A) must be > 0."%string)).
Proof.
  intros Havg. split.
  - rewrite calculate_flight_time_returns.
    destruct (max_cases avg 1e-9) as [[_ ->]|[H _]]; [reflexivity|].
    exfalso. tiny. lra.
  - intros Hcur. unfold _on_calculate. rewrite Hcur.
    destruct (_f (capacity_mAh self) "Capacity (mAh)") as [c|e] eqn:Hc; simpl.
    + destruct (ltbP avg 0) as [Hneg|Hnn]; simpl.
      * eexists. split; [reflexivity|]. intros _ _ ?. lra.
      * destruct (lebP avg 0) as [_|Hpos]; [|lra]. simpl.
        eexists. split; [reflexivity|]. reflexivity.
    + destruct (_f_raises _ _ _ Hc) as [msg ->]. simpl.
      eexists. split; [reflexivity|].
      intros Hcap Hnn _. rewrite Hcap, (_f_numeral cap _ Hnn) in Hc. discriminate.
Qed.

Lemma flight_time_nonpositive_current_witness :
  0 <= 0
  /\ calculate_flight_time 1500 0 true = Py.Ok (capacity_Ah 1500 true / 1e-9 * 60.0).
Proof.
  split; [lra|].
  apply (flight_time_nonpositive_current 1500 0 true
           {| capacity_mAh := Numeral 1500; avg_current_A := Numeral 0;
              use_80 := true; table := []; status_bar := None |}).
  lra.
Defined.

(** C10, amended: the flight-time function is total on non-negative
    inputs, zero current included: it never raises, because its divisor is
    at least [1e-9], and in exact arithmetic its value is non-negative and
    at most [60 000 000 * capacity_mAh]; nothing is said of finiteness once
    that quotient leaves the range of binary64.  Both sweeps are therefore
    total and return one value per element of the input array, in its order,
    each the value of the function at that element. *)
Theorem flight_time_total
    (cap avg : Q) (rule : bool) (capacities currents : list Q) :
  0 <= cap -> 0 <= avg ->
  Forall (fun c => 0 <= c) capacities ->
  Forall (fun i => 0 <= i) currents ->
  (exists v, calculate_flight_time cap avg rule = Py.Ok v
             /\ 0 <= v /\ v <= 60000000 * cap)
  /\ 1e-9 <= Py.max avg 1e-9
  /\ (exists ts,
        series_flight_time_vs_capacity capacities avg rule = Py.Ok ts
        /\ Forall2 (fun c t => calculate_flight_time c avg rule = Py.Ok t /\ 0 <= t)
                   capacities ts)
  /\ (exists ts,
        series_flight_time_vs_current currents cap rule = Py.Ok ts
        /\ Forall2 (fun i t => calculate_flight_time cap i rule = Py.Ok t /\ 0 <= t)
                   currents ts).
Proof.
  intros Hcap Havg Hcaps Hcurs.
  split; [|split; [|split]].
  - eexists. split; [apply calculate_flight_time_returns|]. split.
    + eapply calculate_flight_time_nonneg;
        [exact Hcap|apply calculate_flight_time_returns].
    + now apply calculate_flight_time_bounded.
  - apply max_lower_r.
  - destruct (comprehension_total
                (fun c => calculate_flight_time c avg rule) capacities)
      as (ts & Hts & Hall).
    { intros c. eexists. apply calculate_flight_time_returns. }
    exists ts. split; [exact Hts|].
    clear Hts. induction Hall as [|c t cs ts' Hct Hall IH]; constructor.
    + split; [exact Hct|]. inversion Hcaps; subst.
      now apply (calculate_flight_time_nonneg c avg t rule).
    + apply IH. now inversion Hcaps.
  - destruct (comprehension_total
                (fun i => calculate_flight_time cap i rule) currents)
      as (ts & Hts & Hall).
    { intros i. eexists. apply calculate_flight_time_returns. }
    exists ts. split; [exact Hts|].
    clear Hts Hcurs. induction Hall as [|i t is' ts' Hit Hall IH]; constructor.
    + split; [exact Hit|].
      exact (calculate_flight_time_nonneg cap i t rule Hcap Hit).
    + exact IH.
Qed.

Lemma flight_time_total_witness :
  exists v, calculate_flight_time 1500 0 true = Py.Ok v
            /\ 0 <= v /\ v <= 60000000 * 1500.
Proof.
  apply (flight_time_total 1500 0 true [500; 1000] [0; 5]).
  - lra.
  - lra.
  - repeat constructor; lra.
  - repeat constructor; lra.
Defined.

End FlightTimeFacts.

(* ================================================================== *)
(** * The flight-time function in binary64                             *)
(* ================================================================== *)

Section Binary64Facts.
#[local] Set Warnings "-inexact-float".

(** C10, the claim refuted: a capacity of 1e308 mAh and a current of zero
    are both non-negative and the function returns without raising, but what
    it returns is infinity, not a finite number: the quotient by the clamp
    1e-9 overflows. *)
Lemma flight_time_overflows :
  PrimFloat.leb 0 1e308 = true
  /\ PrimFloat.leb 0 0 = true
  /\ Binary64.calculate_flight_time 1e308 0 false = Py.Ok infinity
  /\ PrimFloat.is_finite infinity = false.
Proof. repeat apply conj; reflexivity. Qed.

(** Where the rationals and binary64 agree and where they part: at zero
    current both give 72 000 000 000 minutes for 1500 mAh under the rule; at
    18 A binary64 gives 4.000000000000001 minutes with the rule and 5 without
    it, the rationals 4 and 5. *)
Example flight_time_binary64 :
  Binary64.calculate_flight_time 1500 0 true = Py.Ok 72000000000%float
  /\ Binary64.calculate_flight_time 1500 18 true = Py.Ok 4.000000000000001%float
  /\ Binary64.calculate_flight_time 1500 18 false = Py.Ok 5%float.
Proof. repeat apply conj; reflexivity. Qed.

End Binary64Facts.

(* ================================================================== *)
(** * The motor and ESC table                                          *)
(* ================================================================== *)

Section MotorEscFacts.
Import MotorEsc.

Variable current_draws : gmap Z Q.

(** The inner loop appends the rows of one KV, the outer loop those of
    every KV. *)
Lemma inner_loop (kv : Z) (voltages : list Q) (results : list row) :
  fold_left
    (fun results voltage => results ++ [result_for current_draws kv voltage])
    voltages results
  = results ++ map (result_for current_draws kv) voltages.
Proof.
  revert results. induction voltages as [|v vs IH]; intros results; simpl.
  - now rewrite app_nil_r.
  - rewrite IH, <- app_assoc. reflexivity.
Qed.

Lemma outer_loop (kvs : list Z) (voltages : list Q) (results : list row) :
  fold_left
    (fun results kv =>
       fold_left
         (fun results voltage => results ++ [result_for current_draws kv voltage])
         voltages results)
    kvs results
  = results ++ flat_map (fun kv => map (result_for current_draws kv) voltages) kvs.
Proof.
  revert results. induction kvs as [|kv kvs IH]; intros results; simpl.
  - now rewrite app_nil_r.
  - rewrite IH, inner_loop, <- app_assoc. reflexivity.
Qed.

(** The row the code builds is the row the specification words. *)
Lemma result_for_spec (kv : Z) (voltage : Q) :
  result_for current_draws kv voltage = spec_row current_draws kv voltage.
Proof.
  unfold result_for, spec_row, torque_category, current_for.
  destruct (current_draws !! kv); simpl; f_equal;
    destruct (Z.leb_spec 2000 kv), (Z.leb_spec 1000 kv),
      (Z.ltb_spec kv 2000), (Z.ltb_spec kv 1000); simpl; trivial; lia.
Qed.

Lemma table_of_product (kvs : list Z) (voltages : list Q) :
  flat_map (fun kv => map (result_for current_draws kv) voltages) kvs
  = map (fun p => spec_row current_draws (fst p) (snd p)) (list_prod kvs voltages).
Proof.
  induction kvs as [|kv kvs IH]; simpl; [reflexivity|].
  rewrite map_app, map_map, IH. f_equal.
  apply map_ext. intros v. simpl. apply result_for_spec.
Qed.

Lemma motor_esc_refines (kvs : list Z) (voltages : list Q) :
  calculate_motor_esc_params kvs voltages current_draws
  = motorEscTable kvs voltages current_draws.
Proof.
  unfold calculate_motor_esc_params, motorEscTable.
  rewrite outer_loop. simpl. apply table_of_product.
Qed.

End MotorEscFacts.

(** C8: [calculate_motor_esc_params] returns the table of the
  specification: one row per pair of the cartesian product of the KV list
  and the voltage list, in the order of the product, so
  [len(kvs) * len(voltages)] rows; every row has [rpm = kv * voltage], the
  torque category High below 1000, Medium from 1000 and below 2000, Low
  from 2000, [power = voltage * current] and
  [esc = round(current * 1.2)], where [current] is the map's entry for the
  KV, or 0 without one.  For [[1200]], [[14.8]] and [{1200: 40}] the table
  is one row: rpm 17760, torque Medium, power 592, ESC 48. *)
Theorem motor_esc_table
  (kvs : list Z) (voltages : list Q) (current_draws : gmap Z Q) :
let rows := MotorEsc.calculate_motor_esc_params kvs voltages current_draws in
rows = MotorEsc.motorEscTable kvs voltages current_draws
/\ map (fun r => (MotorEsc.KV r, MotorEsc.Voltage r)) rows = list_prod kvs voltages
/\ length rows = (length kvs * length voltages)%nat
/\ Forall
     (fun r =>
        let kv := MotorEsc.KV r in
        let current := default 0.0 (current_draws !! kv) in
        MotorEsc.RPM r = inject_Z kv * MotorEsc.Voltage r
        /\ MotorEsc.Torque r
           = (if decide (kv < 1000)%Z then "High"
              else if decide (kv < 2000)%Z then "Medium"
              else "Low")%string
        /\ MotorEsc.Power r = MotorEsc.Voltage r * current
        /\ MotorEsc.ESC_Recommendation r = Py.round (current * 1.2))
     rows
/\ exists r,
     MotorEsc.calculate_motor_esc_params [1200%Z] [14.8] {[ 1200%Z := 40 ]} = [r]
     /\ MotorEsc.RPM r == 17760
     /\ MotorEsc.Torque r = "Medium"%string
     /\ MotorEsc.Power r == 592
     /\ MotorEsc.ESC_Recommendation r = 48%Z.
Proof.
intros rows. subst rows. rewrite motor_esc_refines.
unfold MotorEsc.motorEscTable.
split; [reflexivity|]. split; [|split; [|split]].
- rewrite map_map. simpl. erewrite map_ext; [apply map_id|].
  now intros [kv v].
- now rewrite length_map, length_prod.
- apply List.Forall_forall. intros r Hr. apply in_map_iff in Hr.
  destruct Hr as ([kv v] & <- & _). simpl.
  unfold MotorEsc.torque_category, MotorEsc.current_for.
  split; [reflexivity|]. split; [|split].
  + destruct (Z.ltb_spec kv 1000), (Z.ltb_spec kv 2000);
      repeat case_decide; simpl; trivial; lia.
  + now destruct (current_draws !! kv).
  + now destruct (current_draws !! kv).
- eexists. split; [vm_compute; reflexivity|]. now vm_compute.
Qed.

(** [round] on the ties and around them, as Python rounds them. *)
Example round_ties :
Py.round 2.5 = 2%Z /\ Py.round 3.5 = 4%Z /\ Py.round (-0.5) = 0%Z
/\ Py.round (-1.5) = (-2)%Z /\ Py.round 2.4 = 2%Z /\ Py.round 2.6 = 3%Z
/\ Py.round 48 = 48%Z.
Proof. now vm_compute. Qed.

(* ================================================================== *)
(** * The plane power estimate                                         *)
(* ================================================================== *)

Section PowerSystemFacts.
Import Gui PowerSystem.

(** C9: the recommended battery voltage follows the wingspan bands
    exactly: 11.1 below 100 cm, 14.8 from 100 and below 140, 22.2 from 140
    and below 175, 29.6 from 175 and below 215, 37.0 from 215 and below
    245, and 44.4 from 245 on; 120 cm give 14.8. *)
Theorem wingspan_voltage_bands (cm : Q) :
  0 <= cm ->
  (cm < 100 -> battery_voltage_from_wingspan_cm cm = 11.1)
  /\ (100 <= cm -> cm < 140 -> battery_voltage_from_wingspan_cm cm = 14.8)
  /\ (140 <= cm -> cm < 175 -> battery_voltage_from_wingspan_cm cm = 22.2)
  /\ (175 <= cm -> cm < 215 -> battery_voltage_from_wingspan_cm cm = 29.6)
  /\ (215 <= cm -> cm < 245 -> battery_voltage_from_wingspan_cm cm = 37.0)
  /\ (245 <= cm -> battery_voltage_from_wingspan_cm cm = 44.4)
  /\ battery_voltage_from_wingspan_cm 120 = 14.8.
Proof.
  intros _. unfold battery_voltage_from_wingspan_cm.
  repeat apply conj; try reflexivity; intros;
    destruct (ltbP cm 100), (ltbP cm 140), (ltbP cm 175),
      (ltbP cm 215), (ltbP cm 245); trivial; lra.
Qed.

Lemma wingspan_voltage_bands_witness :
  0 <= 120 /\ battery_voltage_from_wingspan_cm 120 = 14.8.
Proof.
  split; [lra|].
  destruct (wingspan_voltage_bands 120 ltac:(lra)) as (_ & H & _).
  apply H; lra.
Defined.

(** The estimate the window shows: when [_on_calculate] ends normally,
    the wingspan field held a non-negative number and the fourth row of
    the result table is the voltage of its band. *)
Lemma on_calculate_voltage_row (self self' : PlanePowerCalculator) :
  _on_calculate self = (self', Done) ->
  exists wingspan,
    wingspan_cm self = Numeral wingspan /\ 0 <= wingspan
    /\ table self' !! 3%nat
       = Some ("Recommended battery voltage (V)"%string,
               Fixed 1 (battery_voltage_from_wingspan_cm wingspan)).
Proof.
  unfold _on_calculate, _pct.
  destruct (_f (weight_kg self) _) as [weight|e] eqn:H1; simpl;
    [|destruct e; discriminate].
  destruct (_f (wingspan_cm self) _) as [wingspan|e] eqn:H2; simpl;
    [|destruct e; discriminate].
  destruct (_f (efficiency_pct self) _) as [eff|e] eqn:H3; simpl;
    [|destruct e; discriminate].
  destruct (negb _); simpl; [discriminate|].
  destruct (_f (pitch_cm self) _) as [pitch|e] eqn:H4; simpl;
    [|destruct e; discriminate].
  destruct (_f (rpm self) _) as [rpm_|e] eqn:H5; simpl;
    [|destruct e; discriminate].
  destruct (_f (thrust_g self) _) as [thrust|e] eqn:H6; simpl;
    [|destruct e; discriminate].
  destruct (_f (max_current_a self) _) as [max_i|e] eqn:H7; simpl;
    [|destruct e; discriminate].
  destruct (_f (batt_capacity_mah self) _) as [cap|e] eqn:H8; simpl;
    [|destruct e; discriminate].
  destruct (_f (c_rate self) _) as [c_rate_|e] eqn:H9; simpl;
    [|destruct e; discriminate].
  intros [= <-]. apply _f_ok in H2 as [-> Hnn].
  exists wingspan. repeat split; trivial.
Qed.

End PowerSystemFacts.

(* ================================================================== *)
(** * The battery monitor simulator                                    *)
(* ================================================================== *)

Section BatterySimFacts.
Import Gui BatterySim.

(** ** Pausing keeps what was accumulated *)

Lemma _on_pause_keeps (self : BatterySimWindow) :
  table (_on_pause self) = table self
  /\ records (_on_pause self) = records self
  /\ consumed_mAh (_on_pause self) = consumed_mAh self
  /\ effective_capacity_mAh (_on_pause self) = effective_capacity_mAh self
  /\ total_elapsed_s (_on_pause self) = total_elapsed_s self
  /\ start_time (_on_pause self) = start_time self
  /\ last_time (_on_pause self) = last_time self
  /\ attrs (_on_pause self) = attrs self
  /\ labels (_on_pause self) = labels self
  /\ status_bar (_on_pause self) = status_bar self
  /\ form (_on_pause self) = form self.
Proof. unfold _on_pause. destruct (running self); simpl; repeat split. Qed.

Lemma _on_pause_stops (self : BatterySimWindow) :
  isActive (timer self) = running self ->
  running (_on_pause self) = false /\ isActive (timer (_on_pause self)) = false.
Proof.
  intros H. unfold _on_pause. destruct (running self) eqn:E; simpl; auto.
Qed.

(** ** The estimate of the time left never divides by zero *)

Lemma flight_time_left_min_cases (remaining_mAh current_A : Q) :
  (0.1 < current_A
   /\ flight_time_left_min remaining_mAh current_A
      = Py.Ok (remaining_mAh / 1000.0 / current_A * 60.0))
  \/ (current_A <= 0.1
      /\ flight_time_left_min remaining_mAh current_A = Py.Ok 9999.0).
Proof.
  unfold flight_time_left_min. destruct (gtbP current_A 0.1) as [H|H].
  - left. split; [exact H|]. rewrite truediv_ok; [reflexivity | lra].
  - right. split; [lra | reflexivity].
Qed.

Lemma sentinel_shown : eta_cell 9999.0 = Text "--" /\ eta_label 9999.0 = Text "--".
Proof. split; reflexivity. Qed.

(** ** The three ways a tick can go *)

Lemma tick_stops_on_duration (now u : Q) (self : BatterySimWindow) (a : Attrs) :
  attrs self = Some a ->
  sim_duration_s a <= now - start_time self ->
  _on_tick now u self
  = (_on_pause (showMessage "Reached simulation duration."
                  (set_total_elapsed_s (now - start_time self) self)), Done).
Proof.
  intros Ha Hdur. unfold _on_tick. simpl. rewrite Ha.
  destruct (gebP (now - start_time self) (sim_duration_s a)); [reflexivity | lra].
Qed.

Lemma tick_waits (now u : Q) (self : BatterySimWindow) (a : Attrs) :
  attrs self = Some a ->
  now - start_time self < sim_duration_s a ->
  now - last_time self + 1e-9 < sampling_interval_s a ->
  _on_tick now u self = (set_total_elapsed_s (now - start_time self) self, Done).
Proof.
  intros Ha Hdur Hwait. unfold _on_tick. simpl. rewrite Ha.
  destruct (gebP (now - start_time self) (sim_duration_s a)); [lra|].
  destruct (ltbP (now - last_time self + 1e-9) (sampling_interval_s a));
    [reflexivity|contradiction].
Qed.

Lemma tick_samples (now u : Q) (self : BatterySimWindow) (a : Attrs) :
  attrs self = Some a ->
  now - start_time self < sim_duration_s a ->
  sampling_interval_s a <= now - last_time self + 1e-9 ->
  let current_A := Py.uniform (i_min a) (i_max a) u in
  let consumed := consumed_mAh self
                  + current_A * ((now - last_time self) / 3600.0) * 1000.0 in
  let remaining := Py.max (effective_capacity_mAh self - consumed) 0.0 in
  exists eta,
    flight_time_left_min remaining current_A = Py.Ok eta
    /\ snd (_on_tick now u self) = Done
    /\ table (fst (_on_tick now u self))
       = table self ++ [[Fixed 1 (now - start_time self); Fixed 2 current_A;
                         Fixed 1 consumed; Fixed 1 remaining; eta_cell eta]]
    /\ consumed_mAh (fst (_on_tick now u self)) = consumed
    /\ effective_capacity_mAh (fst (_on_tick now u self))
       = effective_capacity_mAh self
    /\ attrs (fst (_on_tick now u self)) = Some a
    /\ status_eta (labels (fst (_on_tick now u self))) = eta_label eta
    /\ (last_time (fst (_on_tick now u self)) = now
        \/ last_time (fst (_on_tick now u self)) = last_time self)
    /\ total_elapsed_s (fst (_on_tick now u self)) = now - start_time self.
Proof.
  intros Ha Hdur Hsamp current_A consumed remaining.
  unfold _on_tick. simpl. rewrite Ha.
  destruct (gebP (now - start_time self) (sim_duration_s a)); [lra|].
  destruct (ltbP (now - last_time self + 1e-9) (sampling_interval_s a)); [lra|].
  fold current_A. fold consumed. fold remaining.
  destruct (flight_time_left_min_cases remaining current_A) as [[_ ->]|[_ ->]];
    eexists; (split; [reflexivity|]);
    destruct (lebP remaining 0.0); simpl;
    unfold _on_pause; simpl; destruct (running self); simpl;
    repeat split; auto.
Qed.

(** X26: a reading more than a nanosecond before the last sample, as after
    the clock was set back, never samples: the tick stops on the duration or
    waits, and the table and the consumption are left alone. *)
Lemma tick_clock_set_back (now u : Q) (self : BatterySimWindow) (a : Attrs) :
  attrs self = Some a ->
  0 <= sampling_interval_s a ->
  now - last_time self + 1e-9 < 0 ->
  table (fst (_on_tick now u self)) = table self
  /\ consumed_mAh (fst (_on_tick now u self)) = consumed_mAh self.
Proof.
  intros Ha Hs Hback.
  destruct (Qlt_le_dec (now - start_time self) (sim_duration_s a)) as [Hdur|Hdur].
  - rewrite (tick_waits now u self a Ha Hdur); [now split | lra].
  - rewrite (tick_stops_on_duration now u self a Ha Hdur). simpl.
    now destruct (_on_pause_keeps
                    (showMessage "Reached simulation duration."
                       (set_total_elapsed_s (now - start_time self) self)))
      as (-> & _ & -> & _).
Qed.

(** ** What [_on_start] reads *)

Lemma read_config_ok (self : BatterySimWindow) (cap samp dur lo hi : Q) :
  read_config self = Py.Ok (cap, samp, dur, lo, hi) ->
  (0 <= cap /\ 0 <= samp /\ 0 <= dur /\ 0 <= lo /\ lo <= hi)
  /\ i_min_a (form self) = Numeral lo /\ i_max_a (form self) = Numeral hi.
Proof.
  unfold read_config.
  destruct (_f (capacity_mAh (form self)) _) as [c|] eqn:H1; simpl; [|discriminate].
  destruct (_f (sampling_s (form self)) _) as [s|] eqn:H2; simpl; [|discriminate].
  destruct (_f (duration_s (form self)) _) as [d|] eqn:H3; simpl; [|discriminate].
  destruct (_f (i_min_a (form self)) _) as [l|] eqn:H4; simpl; [|discriminate].
  destruct (_f (i_max_a (form self)) _) as [h|] eqn:H5; simpl; [|discriminate].
  destruct (ltbP h l) as [|Hle]; [discriminate|].
  intros [= -> -> -> -> ->].
  apply _f_ok in H1 as [_ ?], H2 as [_ ?], H3 as [_ ?], H4 as [? ?], H5 as [? ?].
  repeat split; trivial; lra.
Qed.

Lemma read_config_raises (self : BatterySimWindow) (e : Py.exn) :
  read_config self = Py.Raise e -> exists msg, e = Py.ValueError msg.
Proof.
  unfold read_config.
  destruct (_f (capacity_mAh (form self)) _) as [c|e1] eqn:H1; simpl;
    [|intros [= <-]; eapply _f_raises; eassumption].
  destruct (_f (sampling_s (form self)) _) as [s|e2] eqn:H2; simpl;
    [|intros [= <-]; eapply _f_raises; eassumption].
  destruct (_f (duration_s (form self)) _) as [d|e3] eqn:H3; simpl;
    [|intros [= <-]; eapply _f_raises; eassumption].
  destruct (_f (i_min_a (form self)) _) as [l|e4] eqn:H4; simpl;
    [|intros [= <-]; eapply _f_raises; eassumption].
  destruct (_f (i_max_a (form self)) _) as [h|e5] eqn:H5; simpl;
    [|intros [= <-]; eapply _f_raises; eassumption].
  destruct (Py.ltb h l); [|discriminate].
  intros [= <-]. eauto.
Qed.

(** C2: in a running simulation, a tick whose updated [total_elapsed_s]
    reaches or exceeds the duration appends no row, leaves the accumulated
    consumption alone, and pauses the simulator ([running] false, timer
    stopped) under the status message of the reached duration.  The check
    comes before the current is drawn: whatever the random number, the tick
    ends the same way. *)
Theorem tick_duration_reached
    (now u : Q) (self : BatterySimWindow) (a : Attrs) :
  running self = true ->
  attrs self = Some a ->
  sim_duration_s a <= now - start_time self ->
  let self' := fst (_on_tick now u self) in
  snd (_on_tick now u self) = Done
  /\ total_elapsed_s self' = now - start_time self
  /\ table self' = table self
  /\ records self' = records self
  /\ consumed_mAh self' = consumed_mAh self
  /\ last_time self' = last_time self
  /\ running self' = false
  /\ isActive (timer self') = false
  /\ status_bar self' = Some "Reached simulation duration."%string
  /\ forall u', _on_tick now u' self = _on_tick now u self.
Proof.
  intros Hrun Ha Hdur self'. subst self'.
  rewrite (tick_stops_on_duration now u self a Ha Hdur).
  unfold _on_pause. simpl. rewrite Hrun. simpl.
  repeat split.
  intros u'. rewrite (tick_stops_on_duration now u' self a Ha Hdur).
  unfold _on_pause. simpl. rewrite Hrun. reflexivity.
Qed.

Lemma tick_duration_reached_witness :
  let self := fst (_on_start 1000 __init__) in
  running self = true
  /\ running (fst (_on_tick 1120 0.5 self)) = false
  /\ table (fst (_on_tick 1120 0.5 self)) = [].
Proof.
  intros self.
  assert (Hrun : running self = true) by reflexivity.
  split; [exact Hrun|].
  pose proof (tick_duration_reached 1120 0.5 self
                {| sampling_interval_s := 0.1; sim_duration_s := 120;
                   i_min := 2.0; i_max := 10.0 |}
                Hrun eq_refl ltac:(vm_compute; discriminate)) as H.
  simpl in H. destruct H as (_ & _ & Ht & _ & _ & _ & Hr & _).
  split; [exact Hr | exact Ht].
Defined.

(** C5: when the form holds a maximum current below the minimum current,
    [_on_start] ends behind an error box and returns the window it was
    given: [running] and the timer are as before, so nothing is started and
    no tick is scheduled, and [total_elapsed_s], [consumed_mAh], the table
    and [effective_capacity_mAh] are untouched.  When the other fields are
    valid the message is the one of the range check. *)
Theorem start_rejects_inverted_range
    (now lo hi : Q) (self : BatterySimWindow) :
  i_min_a (form self) = Numeral lo ->
  i_max_a (form self) = Numeral hi ->
  hi < lo ->
  exists msg,
    _on_start now self = (self, ErrorBox msg)
    /\ handle (Click_start now) self
       = (self, if start_btn self then ErrorBox msg else Done)
    /\ (forall cap samp dur,
          capacity_mAh (form self) = Numeral cap ->
          sampling_s (form self) = Numeral samp ->
          duration_s (form self) = Numeral dur ->
          0 <= cap -> 0 <= samp -> 0 <= dur -> 0 <= hi ->
          msg = "Current max (A) must be >= Current min (A)."%string).
Proof.
  intros Hlo Hhi Hlt.
  assert (Hcfg : exists msg,
             read_config self = Py.Raise (Py.ValueError msg)
             /\ (forall cap samp dur,
                   capacity_mAh (form self) = Numeral cap ->
                   sampling_s (form self) = Numeral samp ->
                   duration_s (form self) = Numeral dur ->
                   0 <= cap -> 0 <= samp -> 0 <= dur -> 0 <= hi ->
                   msg = "Current max (A) must be >= Current min (A)."%string)).
  { destruct (read_config self) as [[[[[c s] d] l] h]|e] eqn:Hrc.
    - apply read_config_ok in Hrc as (Hb & Hl & Hh).
      rewrite Hlo in Hl. rewrite Hhi in Hh.
      injection Hl as <-. injection Hh as <-. lra.
    - destruct (read_config_raises _ _ Hrc) as [msg ->].
      exists msg. split; [reflexivity|].
      intros cap samp dur Hc Hs Hd ? ? ? ?.
      unfold read_config in Hrc.
      rewrite Hc, Hs, Hd, Hlo, Hhi in Hrc.
      rewrite !_f_numeral in Hrc by lra. simpl in Hrc.
      destruct (ltbP hi lo); [|contradiction].
      now injection Hrc as <-. }
  destruct Hcfg as (msg & Hrc & Hmsg).
  exists msg. split; [|split].
  - unfold _on_start. now rewrite Hrc.
  - simpl. unfold _on_start. rewrite Hrc. now destruct (start_btn self).
  - exact Hmsg.
Qed.

Lemma start_rejects_inverted_range_witness :
  let self :=
    set_form {| capacity_mAh := Numeral 1500; use_80 := true;
                sampling_s := Numeral 0.1; duration_s := Numeral 120;
                i_min_a := Numeral 10; i_max_a := Numeral 2 |} __init__ in
  2 < 10
  /\ exists msg, _on_start 1000 self = (self, ErrorBox msg).
Proof.
  intros self. split; [lra|].
  destruct (start_rejects_inverted_range 1000 10 2 self eq_refl eq_refl ltac:(lra))
    as (msg & H & _).
  exists msg. exact H.
Defined.

(** C6: [_on_reset] is idempotent, and from any window it yields the
    condition before the first start: not running, the timer stopped, the
    clock marks, [total_elapsed_s] and [consumed_mAh] at zero, the table and
    [records] empty, the status row, the buttons and the status bar as
    [__init__] leaves them. *)
Theorem reset_idempotent (self : BatterySimWindow) :
  _on_reset (_on_reset self) = _on_reset self
  /\ running (_on_reset self) = false
  /\ isActive (timer (_on_reset self)) = false
  /\ total_elapsed_s (_on_reset self) = 0.0
  /\ consumed_mAh (_on_reset self) = 0.0
  /\ table (_on_reset self) = []
  /\ records (_on_reset self) = []
  /\ start_time (_on_reset self) = start_time __init__
  /\ last_time (_on_reset self) = last_time __init__
  /\ total_elapsed_s (_on_reset self) = total_elapsed_s __init__
  /\ consumed_mAh (_on_reset self) = consumed_mAh __init__
  /\ labels (_on_reset self) = labels __init__
  /\ status_bar (_on_reset self) = status_bar __init__
  /\ (inputs_enabled (_on_reset self), start_btn (_on_reset self),
      pause_btn (_on_reset self))
     = (inputs_enabled __init__, start_btn __init__, pause_btn __init__).
Proof.
  split; [|repeat apply conj; reflexivity].
  destruct self. cbv. reflexivity.
Qed.

(** C7: a tick that produces a sample estimates the time left as
    [(remaining_mAh / 1000 / current_A) * 60] when the current drawn exceeds
    0.1 A, and as the sentinel 9999, shown as two dashes in the table and in
    the status row, when it does not, whatever capacity remains; a current
    of 0.05 A gives the sentinel. *)
Theorem eta_or_sentinel
    (now u remaining_mAh : Q) (self : BatterySimWindow) (a : Attrs) :
  attrs self = Some a ->
  now - start_time self < sim_duration_s a ->
  sampling_interval_s a <= now - last_time self + 1e-9 ->
  let current_A := Py.uniform (i_min a) (i_max a) u in
  let consumed := consumed_mAh self
                  + current_A * ((now - last_time self) / 3600.0) * 1000.0 in
  let remaining := Py.max (effective_capacity_mAh self - consumed) 0.0 in
  (exists eta,
     flight_time_left_min remaining current_A = Py.Ok eta
     /\ table (fst (_on_tick now u self))
        = table self ++ [[Fixed 1 (now - start_time self); Fixed 2 current_A;
                          Fixed 1 consumed; Fixed 1 remaining; eta_cell eta]]
     /\ status_eta (labels (fst (_on_tick now u self))) = eta_label eta
     /\ (0.1 < current_A -> eta = remaining / 1000.0 / current_A * 60.0)
     /\ (current_A <= 0.1 ->
         eta = 9999.0 /\ eta_cell eta = Text "--" /\ eta_label eta = Text "--"))
  /\ flight_time_left_min remaining_mAh 0.05 = Py.Ok 9999.0.
Proof.
  intros Ha Hdur Hsamp current_A consumed remaining.
  split; [|reflexivity].
  destruct (tick_samples now u self a Ha Hdur Hsamp)
    as (eta & Heta & _ & Htable & _ & _ & _ & Hlabel & _).
  fold current_A consumed remaining in Heta, Htable.
  exists eta. split; [exact Heta|]. split; [exact Htable|]. split; [exact Hlabel|].
  destruct (flight_time_left_min_cases remaining current_A) as [[Hc He]|[Hc He]];
    rewrite He in Heta; injection Heta as <-.
  - split; [reflexivity | intros; lra].
  - split; [intros; lra | intros _; repeat split].
Qed.

Lemma eta_or_sentinel_witness :
  let self := fst (_on_start 1000 __init__) in
  flight_time_left_min 1200 0.05 = Py.Ok 9999.0.
Proof.
  intros self.
  apply (eta_or_sentinel 1001 0.5 1200 self
           {| sampling_interval_s := 0.1; sim_duration_s := 120;
              i_min := 2.0; i_max := 10.0 |}).
  - reflexivity.
  - reflexivity.
  - vm_compute. discriminate.
Defined.

(** ** The invariant of the event loop *)

Lemma invariant_init (t : Q) : 0 <= t -> invariant t __init__.
Proof.
  intros Ht. unfold invariant. simpl.
  repeat apply conj; try lra; try discriminate; auto.
Qed.

Lemma invariant_wait (t t' : Q) (self : BatterySimWindow) :
  invariant t self -> t <= t' -> invariant t' self.
Proof.
  unfold invariant. intros (? & ? & ? & ? & ? & ? & ?) Hle.
  repeat apply conj; trivial; lra.
Qed.

(** The current drawn lies between the two bounds. *)
Lemma uniform_bounds (lo hi u : Q) :
  lo <= hi -> 0 <= u -> u < 1 ->
  lo <= Py.uniform lo hi u /\ Py.uniform lo hi u <= hi.
Proof.
  intros Hle Hu0 Hu1. unfold Py.uniform.
  assert (0 <= (hi - lo) * u) by (apply Qmult_le_0_compat; lra).
  assert (0 <= (hi - lo) * (1 - u)) by (apply Qmult_le_0_compat; lra).
  split; lra.
Qed.

(** The charge of one interval is not negative. *)
Lemma used_nonneg (current_A elapsed_s : Q) :
  0 <= current_A -> 0 <= elapsed_s ->
  0 <= current_A * (elapsed_s / 3600.0) * 1000.0.
Proof.
  intros Hc He.
  assert (0 <= elapsed_s / 3600.0) by (apply Qle_shift_div_l; lra).
  assert (0 <= current_A * (elapsed_s / 3600.0)) by (now apply Qmult_le_0_compat).
  lra.
Qed.

Lemma invariant_pause (t : Q) (self : BatterySimWindow) :
  invariant t self -> invariant t (_on_pause self).
Proof.
  unfold invariant, _on_pause. intros (? & ? & ? & ? & ? & ? & ?).
  destruct (running self) eqn:E; simpl; rewrite ?E; repeat apply conj; trivial;
    discriminate.
Qed.

Lemma invariant_reset (t : Q) (self : BatterySimWindow) :
  invariant t self -> invariant t (_on_reset self).
Proof.
  unfold invariant. intros (? & ? & ? & ? & ? & ? & ?). simpl.
  repeat apply conj; trivial; try lra; discriminate.
Qed.

Lemma invariant_start (t now : Q) (self : BatterySimWindow) :
  invariant t self -> now == t -> invariant t (fst (_on_start now self)).
Proof.
  intros Hinv Hnow. unfold _on_start.
  destruct (read_config self) as [[[[[cap samp] dur] lo] hi]|e] eqn:Hrc.
  - apply read_config_ok in Hrc as ((? & ? & ? & ? & ?) & _ & _).
    destruct Hinv as (? & ? & ? & ? & ? & ? & ?).
    assert (0 <= cap * (if use_80 (form self) then 0.8 else 1.0))
      by (destruct (use_80 (form self)); nra).
    unfold invariant. simpl.
    destruct (running self) eqn:E; simpl;
      [|destruct (Py.eqb (start_time self) 0.0); simpl];
      (repeat apply conj; trivial; try lra; try discriminate);
      intros a' [= <-]; unfold valid_attrs; simpl; repeat apply conj; lra.
  - destruct e; exact Hinv.
Qed.

Lemma tick_timer_follows_running (now u : Q) (self : BatterySimWindow) :
  isActive (timer self) = running self ->
  isActive (timer (fst (_on_tick now u self)))
  = running (fst (_on_tick now u self)).
Proof.
  intros Hrun. unfold _on_tick. simpl.
  destruct (attrs self); [|exact Hrun].
  destruct (Py.geb _ _).
  { unfold _on_pause. simpl. destruct (running self) eqn:E; simpl; congruence. }
  destruct (Py.ltb _ _); [exact Hrun|].
  destruct (flight_time_left_min _ _); simpl; [|exact Hrun].
  destruct (Py.leb _ _); simpl; [|exact Hrun].
  unfold _on_pause. simpl. destruct (running self) eqn:E; simpl; congruence.
Qed.

Lemma invariant_tick (t now u : Q) (self : BatterySimWindow) :
  invariant t self -> now == t -> 0 <= u -> u < 1 ->
  invariant t (fst (_on_tick now u self)).
Proof.
  intros Hinv Hnow Hu0 Hu1.
  pose proof Hinv as (Ht & Hc & He & Hl & Hv & Hact & Hrun).
  destruct (attrs self) as [a|] eqn:Ha.
  - destruct (Hv a eq_refl) as (Hs & Hd & Hlo & Hhi).
    destruct (Qlt_le_dec (now - start_time self) (sim_duration_s a)) as [Hdur|Hdur].
    + destruct (Qlt_le_dec (now - last_time self + 1e-9) (sampling_interval_s a))
        as [Hwait|Hsamp].
      * rewrite (tick_waits now u self a Ha Hdur Hwait). exact Hinv.
      * destruct (tick_samples now u self a Ha Hdur Hsamp)
          as (eta & _ & _ & _ & Hcons & Heff & Hattrs & _ & Hlast & _).
        destruct (uniform_bounds (i_min a) (i_max a) u Hhi Hu0 Hu1) as [Hcur _].
        pose proof (used_nonneg (Py.uniform (i_min a) (i_max a) u)
                      (now - last_time self)) as Hused.
        pose proof (tick_timer_follows_running now u self Hrun) as Hact'.
        unfold invariant. rewrite Hcons, Heff, Hattrs.
        repeat apply conj; trivial; try lra; try discriminate.
        destruct Hlast as [-> | ->]; lra.
    + rewrite (tick_stops_on_duration now u self a Ha Hdur). simpl.
      apply invariant_pause. exact Hinv.
  - unfold _on_tick. simpl. rewrite Ha. simpl. exact Hinv.
Qed.

Lemma invariant_handle (t : Q) (e : event) (self : BatterySimWindow) :
  invariant t self ->
  (forall now, reading e = Some now -> now == t) ->
  (forall u, chance e = Some u -> 0 <= u /\ u < 1) ->
  invariant t (fst (handle e self)).
Proof.
  intros Hinv Hnow Hu. destruct e as [now| | |now u|f]; simpl.
  - destruct (start_btn self); [|exact Hinv].
    apply invariant_start; [exact Hinv|]. now apply Hnow.
  - destruct (pause_btn self); [|exact Hinv].
    now apply invariant_pause.
  - now apply invariant_reset.
  - destruct (isActive (timer self)); [|exact Hinv].
    destruct (Hu u eq_refl). apply invariant_tick; trivial. now apply Hnow.
  - destruct (inputs_enabled self); exact Hinv.
Qed.

Lemma reachable_invariant (t : Q) (self : BatterySimWindow) :
  reachable t self -> invariant t self.
Proof.
  induction 1 as [t Ht | t t' self _ IH Hle | t self e _ IH Hnow Hu].
  - now apply invariant_init.
  - now apply (invariant_wait t).
  - now apply invariant_handle.
Qed.

(** The list [records] is cleared by [_on_start] and [_on_reset] and
    appended to by nobody: the log of the samples is the table. *)
Lemma reachable_records_empty (t : Q) (self : BatterySimWindow) :
  reachable t self -> records self = [].
Proof.
  induction 1 as [t Ht | t t' self _ IH Hle | t self e _ IH Hnow Hu];
    [reflexivity | exact IH |].
  destruct e as [now| | |now u|f]; simpl.
  - destruct (start_btn self); [|exact IH]. unfold _on_start.
    destruct (read_config self) as [[[[[cap samp] dur] lo] hi]|[]]; trivial.
    simpl. destruct (running self); simpl; [exact IH|].
    now destruct (Py.eqb (start_time self) 0.0).
  - destruct (pause_btn self); [|exact IH]. simpl.
    now destruct (_on_pause_keeps self) as (_ & -> & _).
  - reflexivity.
  - destruct (isActive (timer self)); [|exact IH].
    unfold _on_tick. simpl. destruct (attrs self); [|exact IH].
    destruct (Py.geb _ _); simpl.
    { unfold _on_pause. simpl. now destruct (running self). }
    destruct (Py.ltb _ _); [exact IH|].
    destruct (flight_time_left_min _ _); simpl; [|exact IH].
    destruct (Py.leb _ _); simpl; [|exact IH].
    unfold _on_pause. simpl. now destruct (running self).
  - now destruct (inputs_enabled self).
Qed.

(** The scenario of the specification: 1500 mAh under the 80% rule are
    1200 mAh of effective capacity. *)
Example effective_capacity_scenario :
  effective_capacity_mAh (fst (_on_start 1000 __init__)) == 1200.
Proof. reflexivity. Qed.

(** ** Remaining capacity and consumption along a run *)

(** What one timeout does to the consumption of a window that satisfies
    the invariant at the reading of the timeout. *)
Lemma timeout_consumed (now u : Q) (self : BatterySimWindow) :
  invariant now self -> 0 <= u -> u < 1 ->
  consumed_mAh self <= consumed_mAh (fst (handle (Timeout now u) self)).
Proof.
  intros Hinv Hu0 Hu1. simpl.
  destruct (isActive (timer self)); [|simpl; lra].
  pose proof Hinv as (Ht & Hc & He & Hl & Hv & _ & _).
  destruct (attrs self) as [a|] eqn:Ha.
  - destruct (Hv a eq_refl) as (Hs & Hd & Hlo & Hhi).
    destruct (Qlt_le_dec (now - start_time self) (sim_duration_s a)) as [Hdur|Hdur].
    + destruct (Qlt_le_dec (now - last_time self + 1e-9) (sampling_interval_s a))
        as [Hwait|Hsamp].
      * rewrite (tick_waits now u self a Ha Hdur Hwait). simpl. lra.
      * destruct (tick_samples now u self a Ha Hdur Hsamp)
          as (eta & _ & _ & _ & -> & _).
        destruct (uniform_bounds (i_min a) (i_max a) u Hhi Hu0 Hu1) as [Hcur _].
        pose proof (used_nonneg (Py.uniform (i_min a) (i_max a) u)
                      (now - last_time self)).
        lra.
    + rewrite (tick_stops_on_duration now u self a Ha Hdur). simpl.
      destruct (_on_pause_keeps
                  (showMessage "Reached simulation duration."
                     (set_total_elapsed_s (now - start_time self) self)))
        as (_ & _ & -> & _).
      simpl. lra.
  - unfold _on_tick. simpl. rewrite Ha. simpl. lra.
Qed.

Lemma timeout_invariant (t now u : Q) (self : BatterySimWindow) :
  invariant t self -> t <= now -> 0 <= u -> u < 1 ->
  invariant now (fst (handle (Timeout now u) self)).
Proof.
  intros Hinv Hle Hu0 Hu1.
  apply invariant_handle.
  - now apply (invariant_wait t).
  - intros now' [= <-]. reflexivity.
  - intros u' [= <-]. now split.
Qed.

Lemma ticks_consumed (l : list (Q * Q)) (t : Q) (self : BatterySimWindow) :
  invariant t self -> timed t l ->
  consumed_mAh self <= consumed_mAh (ticks l self).
Proof.
  revert t self. induction l as [|[now u] l IH]; intros t self Hinv Htimed; simpl.
  - lra.
  - destruct Htimed as (Hle & [Hu0 Hu1] & Htimed).
    pose proof (timeout_consumed now u self
                  (invariant_wait t now self Hinv Hle) Hu0 Hu1) as Hstep.
    pose proof (IH now _ (timeout_invariant t now u self Hinv Hle Hu0 Hu1) Htimed)
      as Hrest.
    simpl in Hstep, Hrest. lra.
Qed.

Lemma ticks_consumed_app
    (l1 l2 : list (Q * Q)) (t : Q) (self : BatterySimWindow) :
  invariant t self -> timed t (l1 ++ l2) ->
  consumed_mAh (ticks l1 self) <= consumed_mAh (ticks (l1 ++ l2) self).
Proof.
  revert t self. induction l1 as [|[now u] l1 IH]; intros t self Hinv Htimed.
  - simpl. now apply (ticks_consumed l2 t).
  - simpl in *. destruct Htimed as (Hle & [Hu0 Hu1] & Htimed).
    apply (IH now); [|exact Htimed].
    now apply (timeout_invariant t).
Qed.

(** A first start from the fresh window, at clock reading 1000. *)
Lemma started_reachable : reachable 1000 (fst (_on_start 1000 __init__)).
Proof.
  change (reachable 1000 (fst (handle (Click_start 1000) __init__))).
  apply reach_step.
  - apply reach_init. lra.
  - intros now [= <-]. reflexivity.
  - discriminate.
Qed.

(** C3: on a window reached in a run, a tick at the current clock reading
    either produces no sample (the duration is reached, or the sampling
    interval has not passed) and leaves the table alone, or appends exactly
    one row, whose remaining capacity is
    [max(effective_capacity_mAh - consumed_mAh, 0)] for the consumption just
    updated: never negative, never above the effective capacity. *)
Theorem remaining_within_capacity
    (now u : Q) (self : BatterySimWindow) :
  reachable now self ->
  isActive (timer self) = true ->
  0 <= u -> u < 1 ->
  let self' := fst (_on_tick now u self) in
  exists a,
    attrs self = Some a
    /\ (0 <= i_min a /\ i_min a <= i_max a)
    /\ (((sim_duration_s a <= now - start_time self
          \/ now - last_time self + 1e-9 < sampling_interval_s a)
         /\ table self' = table self)
        \/ (exists current_A remaining eta,
              table self'
              = table self ++ [[Fixed 1 (total_elapsed_s self'); Fixed 2 current_A;
                                Fixed 1 (consumed_mAh self'); Fixed 1 remaining;
                                eta_cell eta]]
              /\ remaining
                 = Py.max (effective_capacity_mAh self' - consumed_mAh self') 0.0
              /\ remaining
                 == Qmax (effective_capacity_mAh self' - consumed_mAh self') 0
              /\ 0 <= remaining
              /\ remaining <= effective_capacity_mAh self')).
Proof.
  intros Hreach Hactive Hu0 Hu1 self'. subst self'.
  pose proof (reachable_invariant now self Hreach) as Hinv.
  pose proof Hinv as (Ht & Hc & He & Hl & Hv & Hact & _).
  destruct (attrs self) as [a|] eqn:Ha; [|now destruct (Hact Hactive)].
  destruct (Hv a eq_refl) as (Hs & Hd & Hlo & Hhi).
  exists a. split; [reflexivity|]. split; [now split|].
  destruct (Qlt_le_dec (now - start_time self) (sim_duration_s a)) as [Hdur|Hdur].
  - destruct (Qlt_le_dec (now - last_time self + 1e-9) (sampling_interval_s a))
      as [Hwait|Hsamp].
    + left. split; [now right|].
      now rewrite (tick_waits now u self a Ha Hdur Hwait).
    + right.
      pose proof (timeout_consumed now u self Hinv Hu0 Hu1) as Hmono.
      simpl in Hmono. rewrite Hactive in Hmono.
      destruct (tick_samples now u self a Ha Hdur Hsamp)
        as (eta & _ & _ & Htable & Hcons & Heff & _ & _ & _ & Htot).
      eexists _, _, eta. rewrite Htot, Hcons, Heff.
      split; [exact Htable|]. split; [reflexivity|].
      rewrite Hcons in Hmono.
      split; [rewrite max_Qmax; now apply Q.max_compat|].
      match goal with |- context [Py.max ?x ?y] =>
        destruct (max_cases x y) as [[? ->]|[? ->]] end; split; lra.
  - left. split; [now left|].
    rewrite (tick_stops_on_duration now u self a Ha Hdur). simpl.
    now destruct (_on_pause_keeps
                    (showMessage "Reached simulation duration."
                       (set_total_elapsed_s (now - start_time self) self)))
      as (-> & _).
Qed.

Lemma remaining_within_capacity_witness :
  let self := fst (_on_start 1000 __init__) in
  reachable 1001 self
  /\ exists a, attrs self = Some a /\ (0 <= i_min a /\ i_min a <= i_max a).
Proof.
  intros self.
  assert (Hreach : reachable 1001 self).
  { apply (reach_wait 1000); [exact started_reachable | lra]. }
  split; [exact Hreach|].
  assert (Hactive : isActive (timer self) = true) by reflexivity.
  assert (Hu0 : 0 <= 0.5) by (clear; lra).
  assert (Hu1 : 0.5 < 1) by (clear; lra).
  pose proof (remaining_within_capacity 1001 0.5 self Hreach Hactive Hu0 Hu1) as H.
  destruct H as (a & Ha & Hb & _).
  exists a. split; [exact Ha | exact Hb].
Defined.

(** C4: along a run, the consumption never decreases from one tick to a
    later one.  From a reached window, any burst of timeouts whose clock
    readings do not decrease leaves, after each further tick, a consumption
    at least that after the earlier ticks; one timeout is the case of two
    successive ticks. *)
Theorem consumed_never_decreases
    (t : Q) (self : BatterySimWindow) (earlier later : list (Q * Q)) :
  reachable t self ->
  timed t (earlier ++ later) ->
  consumed_mAh (ticks earlier self) <= consumed_mAh (ticks (earlier ++ later) self)
  /\ (forall now u, t <= now -> 0 <= u -> u < 1 ->
      consumed_mAh self <= consumed_mAh (fst (handle (Timeout now u) self))).
Proof.
  intros Hreach Htimed.
  pose proof (reachable_invariant t self Hreach) as Hinv.
  split.
  - now apply (ticks_consumed_app earlier later t).
  - intros now u Hle Hu0 Hu1.
    apply timeout_consumed; trivial. now apply (invariant_wait t).
Qed.

Lemma consumed_never_decreases_witness :
  let self := fst (_on_start 1000 __init__) in
  consumed_mAh (ticks [(1001, 0.5)] self)
  <= consumed_mAh (ticks ([(1001, 0.5)] ++ [(1002, 0.25)]) self).
Proof.
  intros self.
  assert (Htimed : timed 1000 ([(1001, 0.5)] ++ [(1002, 0.25)])).
  { clear. simpl. repeat apply conj; trivial; lra. }
  pose proof (consumed_never_decreases 1000 self [(1001, 0.5)] [(1002, 0.25)]
                started_reachable Htimed) as H.
  destruct H as [H _]. exact H.
Defined.

(** The run of the witness, computed: 6 A for one second, then 4 A for
    one second, out of 1200 mAh. *)
Example two_ticks :
  let self := ticks [(1001, 0.5); (1002, 0.25)] (fst (_on_start 1000 __init__)) in
  consumed_mAh self == 25 # 9
  /\ effective_capacity_mAh self == 1200
  /\ length (table self) = 2%nat
  /\ running self = true.
Proof. now vm_compute. Qed.

End BatterySimFacts.

(* ================================================================== *)
(** * More on the flight-time estimator                                *)
(* ================================================================== *)

Section FlightTimeMore.
Import Gui FlightTime.

(** Goals that a short list of numbers is sorted. *)
Ltac sorted_list :=
  repeat match goal with
         | |- StronglySorted _ _ => constructor
         | |- List.Forall _ _ => constructor
         | |- _ <= _ => lra
         end.

Lemma clamp_pos (avg : Q) : 0 < Py.max avg 1e-9.
Proof. pose proof (max_lower_r avg 1e-9). tiny. lra. Qed.

Lemma clamp_monotone (a1 a2 : Q) : a1 <= a2 -> Py.max a1 1e-9 <= Py.max a2 1e-9.
Proof.
  intros H.
  destruct (max_cases a1 1e-9) as [[? ->]|[? ->]];
    destruct (max_cases a2 1e-9) as [[? ->]|[? ->]]; tiny; lra.
Qed.

Lemma capacity_Ah_monotone (c1 c2 : Q) (rule : bool) :
  c1 <= c2 -> capacity_Ah c1 rule <= capacity_Ah c2 rule.
Proof.
  intros H. unfold capacity_Ah.
  assert (c1 / 1000.0 <= c2 / 1000.0).
  { unfold Qdiv. apply Qmult_le_compat_r; [exact H | discriminate]. }
  destruct rule; lra.
Qed.

(** Dividing by more gives less. *)
Lemma div_antitone (x d1 d2 : Q) :
  0 <= x -> 0 < d1 -> d1 <= d2 -> x / d2 <= x / d1.
Proof.
  intros Hx Hd1 Hd.
  apply Qle_shift_div_l; [exact Hd1|].
  assert (E : x / d2 * d1 == x * d1 / d2) by (field; lra).
  rewrite E. apply Qle_shift_div_r; [lra|].
  assert (0 <= x * (d2 - d1)) by (apply Qmult_le_0_compat; lra).
  lra.
Qed.

Lemma div_monotone (x y d : Q) : 0 < d -> x <= y -> x / d <= y / d.
Proof.
  intros Hd Hxy. unfold Qdiv. apply Qmult_le_compat_r; [exact Hxy|].
  apply Qlt_le_weak, Qinv_lt_0_compat, Hd.
Qed.

Lemma minutes_monotone_capacity (c1 c2 avg : Q) (rule : bool) :
  c1 <= c2 ->
  capacity_Ah c1 rule / Py.max avg 1e-9 * 60.0
  <= capacity_Ah c2 rule / Py.max avg 1e-9 * 60.0.
Proof.
  intros H.
  pose proof (div_monotone _ _ _ (clamp_pos avg) (capacity_Ah_monotone c1 c2 rule H)).
  lra.
Qed.

Lemma minutes_antitone_current (cap a1 a2 : Q) (rule : bool) :
  0 <= cap -> a1 <= a2 ->
  capacity_Ah cap rule / Py.max a2 1e-9 * 60.0
  <= capacity_Ah cap rule / Py.max a1 1e-9 * 60.0.
Proof.
  intros Hcap H.
  pose proof (div_antitone (capacity_Ah cap rule) _ _
                (capacity_Ah_nonneg cap rule Hcap) (clamp_pos a1)
                (clamp_monotone a1 a2 H)).
  lra.
Qed.

(** A comprehension over a function that always returns is a [map]. *)
Lemma comprehension_map {A B : Type} (f : A -> Py.result B) (g : A -> B)
    (xs : list A) :
  (forall x, f x = Py.Ok (g x)) -> Py.comprehension f xs = Py.Ok (map g xs).
Proof.
  intros Hf. induction xs as [|x xs IH]; simpl; [reflexivity|].
  now rewrite Hf, IH.
Qed.

Lemma map_sorted {A B : Type} (R : A -> A -> Prop) (S : B -> B -> Prop)
    (g : A -> B) (xs : list A) :
  (forall x y, R x y -> S (g x) (g y)) ->
  StronglySorted R xs -> StronglySorted S (map g xs).
Proof.
  intros Hg. induction 1 as [|x xs Hs IH Hall]; simpl; constructor; trivial.
  apply List.Forall_forall. intros b Hb. apply in_map_iff in Hb as (y & <- & Hy).
  apply Hg. now apply (proj1 (List.Forall_forall _ _) Hall).
Qed.

(** X1: from 1e-9 A upwards the clamp is idle and the function is the
    formula of the help text,
    [(capacity_mAh / 1000 * (0.8 if rule else 1) / avg_current_A) * 60]. *)
Theorem flight_time_formula (cap avg : Q) (rule : bool) :
  1e-9 <= avg ->
  exists v,
    calculate_flight_time cap avg rule = Py.Ok v
    /\ v == cap / 1000 * (if rule then 0.8 else 1) / avg * 60.
Proof.
  intros Havg. rewrite calculate_flight_time_returns.
  eexists. split; [reflexivity|].
  assert (Hpos : 0 < avg) by (tiny; lra).
  destruct (max_cases avg 1e-9) as [[Hlt _]|[_ ->]]; [lra|].
  unfold capacity_Ah. destruct rule; field; lra.
Qed.

Lemma flight_time_formula_witness :
  exists v, calculate_flight_time 1500 18 true = Py.Ok v
            /\ v == 1500 / 1000 * 0.8 / 18 * 60.
Proof.
  apply (flight_time_formula 1500 18 true). vm_compute. discriminate.
Defined.

(** X2: the sweep over capacities never slopes down: capacities in
    non-decreasing order give flight times in non-decreasing order, whatever
    the current and the rule. *)
Theorem sweep_vs_capacity_rises (capacities : list Q) (current_A : Q) (rule : bool) :
  StronglySorted Qle capacities ->
  exists ts,
    series_flight_time_vs_capacity capacities current_A rule = Py.Ok ts
    /\ length ts = length capacities
    /\ StronglySorted Qle ts.
Proof.
  intros Hsorted.
  exists (map (fun c => capacity_Ah c rule / Py.max current_A 1e-9 * 60.0)
              capacities).
  split; [|split].
  - apply comprehension_map. intros c. apply calculate_flight_time_returns.
  - apply length_map.
  - apply (map_sorted Qle); [|exact Hsorted].
    intros c1 c2. apply minutes_monotone_capacity.
Qed.

Lemma sweep_vs_capacity_rises_witness :
  exists ts,
    series_flight_time_vs_capacity [500; 1000; 1500] 18 true = Py.Ok ts
    /\ length ts = 3%nat
    /\ StronglySorted Qle ts.
Proof.
  apply (sweep_vs_capacity_rises [500; 1000; 1500] 18 true).
  sorted_list.
Defined.

(** X3: the sweep over currents never slopes up: for a non-negative
    capacity, currents in non-decreasing order give flight times in
    non-increasing order. *)
Theorem sweep_vs_current_falls (currents : list Q) (capacity_mAh : Q) (rule : bool) :
  0 <= capacity_mAh ->
  StronglySorted Qle currents ->
  exists ts,
    series_flight_time_vs_current currents capacity_mAh rule = Py.Ok ts
    /\ length ts = length currents
    /\ StronglySorted (fun t t' => t' <= t) ts.
Proof.
  intros Hcap Hsorted.
  exists (map (fun i => capacity_Ah capacity_mAh rule / Py.max i 1e-9 * 60.0)
              currents).
  split; [|split].
  - apply comprehension_map. intros i. apply calculate_flight_time_returns.
  - apply length_map.
  - apply (map_sorted Qle); [|exact Hsorted].
    intros a1 a2. now apply minutes_antitone_current.
Qed.

Lemma sweep_vs_current_falls_witness :
  exists ts,
    series_flight_time_vs_current [5; 10; 15] 1500 true = Py.Ok ts
    /\ length ts = 3%nat
    /\ StronglySorted (fun t t' => t' <= t) ts.
Proof.
  apply (sweep_vs_current_falls [5; 10; 15] 1500 true).
  - lra.
  - sorted_list.
Defined.

(** X5: [_on_calculate] ends normally exactly when the capacity field
    holds a non-negative number and the current field a positive one; it
    then replaces the table by its four rows, the last one the flight time.
    Otherwise it ends behind an error box with the window untouched; no
    exception escapes it. *)
Theorem on_calculate_accepts (self : FlightTimeEstimator) :
  (snd (_on_calculate self) = Done
   <-> exists cap cur,
         capacity_mAh self = Numeral cap /\ avg_current_A self = Numeral cur
         /\ 0 <= cap /\ 0 < cur)
  /\ (forall cap cur,
        capacity_mAh self = Numeral cap -> avg_current_A self = Numeral cur ->
        0 <= cap -> 0 < cur ->
        table (fst (_on_calculate self))
        = [ ("Capacity (mAh)"%string, Fixed 0 cap);
            ("Avg current (A)"%string, Fixed 2 cur);
            ("80% rule"%string, Text (if use_80 self then "On" else "Off"));
            ("Estimated flight time (min)"%string,
             Fixed 2 (capacity_Ah cap (use_80 self) / Py.max cur 1e-9 * 60.0)) ])
  /\ (snd (_on_calculate self) <> Done ->
      exists msg, _on_calculate self = (self, ErrorBox msg)).
Proof.
  unfold _on_calculate.
  destruct (_f (capacity_mAh self) "Capacity (mAh)") as [cap|e1] eqn:H1; simpl.
  - apply _f_ok in H1 as [Hcap Hcap0].
    destruct (_f (avg_current_A self) "Avg current (A)") as [cur|e2] eqn:H2; simpl.
    + apply _f_ok in H2 as [Hcur Hcur0].
      destruct (lebP cur 0) as [Hle|Hgt]; simpl.
      * split; [|split].
        -- split; [discriminate|].
           intros (c & i & _ & Hi & _ & Hpos). rewrite Hcur in Hi.
           injection Hi as <-. lra.
        -- intros c i _ Hi _ Hpos. rewrite Hcur in Hi. injection Hi as <-. lra.
        -- intros _. eauto.
      * rewrite calculate_flight_time_returns. simpl.
        split; [|split].
        -- split; [|reflexivity]. intros _. exists cap, cur.
           repeat apply conj; trivial; lra.
        -- intros c i Hc Hi _ _. rewrite Hcap in Hc. rewrite Hcur in Hi.
           injection Hc as <-. injection Hi as <-. reflexivity.
        -- intros H. now destruct H.
    + destruct (_f_raises _ _ _ H2) as [msg ->]. simpl.
      split; [|split].
      * split; [discriminate|].
        intros (c & i & _ & Hi & _ & Hpos). rewrite Hi in H2.
        rewrite _f_numeral in H2 by lra. discriminate.
      * intros c i _ Hi _ Hpos. rewrite Hi in H2.
        rewrite _f_numeral in H2 by lra. discriminate.
      * intros _. eauto.
  - destruct (_f_raises _ _ _ H1) as [msg ->]. simpl.
    split; [|split].
    + split; [discriminate|].
      intros (c & i & Hc & _ & Hc0 & _). rewrite Hc in H1.
      rewrite _f_numeral in H1 by lra. discriminate.
    + intros c i Hc _ Hc0 _. rewrite Hc in H1.
      rewrite _f_numeral in H1 by lra. discriminate.
    + intros _. eauto.
Qed.

Lemma on_calculate_accepts_witness :
  let self := {| capacity_mAh := Numeral 1500; avg_current_A := Numeral 18;
                 use_80 := true; table := []; status_bar := None |} in
  snd (_on_calculate self) = Done.
Proof.
  intros self.
  destruct (on_calculate_accepts self) as [[_ H] _].
  apply H. exists 1500, 18. repeat apply conj; trivial; lra.
Defined.

End FlightTimeMore.

(* ================================================================== *)
(** * More on the motor and ESC table                                  *)
(* ================================================================== *)

Section MotorEscMore.
Import MotorEsc.

(** [round] moves a number by at most one half. *)
Lemma round_within_half (x : Q) :
  x - 0.5 <= inject_Z (Py.round x) /\ inject_Z (Py.round x) <= x + 0.5.
Proof.
  pose proof (Qfloor_le x) as Hlo. pose proof (Qlt_floor x) as Hhi.
  rewrite inject_Z_plus in Hhi. change (inject_Z 1) with 1 in Hhi.
  unfold Py.round.
  destruct (ltbP (x - inject_Z (Qfloor x)) 0.5) as [H1|H1]; [split; lra|].
  destruct (ltbP 0.5 (x - inject_Z (Qfloor x))) as [H2|H2].
  { rewrite inject_Z_plus. change (inject_Z 1) with 1. split; lra. }
  destruct (Z.even (Qfloor x)); [split; lra|].
  rewrite inject_Z_plus. change (inject_Z 1) with 1. split; lra.
Qed.

(** The rows of the table, one by one. *)
Lemma table_rows (kvs : list Z) (voltages : list Q) (m : gmap Z Q) (r : row) :
  In r (calculate_motor_esc_params kvs voltages m) ->
  exists kv voltage,
    In kv kvs /\ In voltage voltages /\ r = spec_row m kv voltage.
Proof.
  rewrite motor_esc_refines. unfold motorEscTable. intros Hr.
  apply in_map_iff in Hr as ([kv v] & <- & Hin).
  apply in_prod_iff in Hin as [Hkv Hv]. now exists kv, v.
Qed.

(** X6: the recommended ESC rating is the current with its 20% margin,
    moved by at most half an ampere by the rounding; from 2.5 A on it is
    therefore never below the current itself. *)
Theorem esc_recommendation_margin
    (kvs : list Z) (voltages : list Q) (current_draws : gmap Z Q) :
  List.Forall
    (fun r =>
       forall current, current_draws !! KV r = Some current ->
         (current * 1.2 - 0.5 <= inject_Z (ESC_Recommendation r)
          /\ inject_Z (ESC_Recommendation r) <= current * 1.2 + 0.5)
         /\ (2.5 <= current -> current <= inject_Z (ESC_Recommendation r)))
    (calculate_motor_esc_params kvs voltages current_draws).
Proof.
  apply List.Forall_forall. intros r Hr current Hc.
  apply table_rows in Hr as (kv & v & _ & _ & ->). simpl in *.
  unfold current_for. rewrite Hc.
  pose proof (round_within_half (current * 1.2)) as [Hlo Hhi].
  split; [split; trivial|]. intros Hbig. lra.
Qed.

(** Below 2.5 A the rounding can eat the margin: 1.2 A are recommended an
    ESC of 1 A. *)
Example esc_margin_lost :
  map ESC_Recommendation
      (calculate_motor_esc_params [900%Z] [11.1] {[ 900%Z := 1.2 ]}) = [1%Z].
Proof. now vm_compute. Qed.

(** X7: the table is empty exactly when one of the two lists is. *)
Theorem motor_table_empty
    (kvs : list Z) (voltages : list Q) (current_draws : gmap Z Q) :
  calculate_motor_esc_params kvs voltages current_draws = []
  <-> kvs = [] \/ voltages = [].
Proof.
  rewrite motor_esc_refines. unfold motorEscTable.
  destruct kvs as [|kv kvs]; [simpl; tauto|].
  destruct voltages as [|v voltages].
  - split; [tauto|]. intros _.
    assert (E : length (list_prod (kv :: kvs) (@nil Q)) = 0%nat)
      by (rewrite length_prod; simpl; lia).
    destruct (list_prod (kv :: kvs) []); [reflexivity | discriminate].
  - simpl. split; [discriminate|]. intros [H|H]; discriminate.
Qed.

(** X8: a KV that the current map does not know still gets its rows, with
    the RPM of the KV, a power of zero and an ESC recommendation of zero. *)
Theorem missing_kv_rows
    (kvs : list Z) (voltages : list Q) (current_draws : gmap Z Q) (kv : Z) :
  current_draws !! kv = None ->
  In kv kvs ->
  (forall voltage, In voltage voltages ->
     exists r, In r (calculate_motor_esc_params kvs voltages current_draws)
               /\ KV r = kv /\ Voltage r = voltage)
  /\ List.Forall
       (fun r =>
          KV r = kv ->
          RPM r = inject_Z kv * Voltage r
          /\ Power r == 0 /\ ESC_Recommendation r = 0%Z)
       (calculate_motor_esc_params kvs voltages current_draws).
Proof.
  intros Hnone Hin. split.
  - intros v Hv. exists (spec_row current_draws kv v).
    split; [|split; reflexivity].
    rewrite motor_esc_refines. unfold motorEscTable.
    apply in_map_iff. exists (kv, v). split; [reflexivity|].
    now apply in_prod.
  - apply List.Forall_forall. intros r Hr Hkv.
    apply table_rows in Hr as (kv' & v & _ & _ & ->). simpl in *. subst kv'.
    unfold current_for. rewrite Hnone.
    split; [reflexivity|]. split; [|reflexivity]. lra.
Qed.

Lemma missing_kv_rows_witness :
  List.Forall
    (fun r =>
       KV r = 900%Z ->
       RPM r = inject_Z 900 * Voltage r
       /\ Power r == 0 /\ ESC_Recommendation r = 0%Z)
    (calculate_motor_esc_params [1200%Z; 900%Z] [14.8; 11.1] {[ 1200%Z := 40 ]}).
Proof.
  apply (missing_kv_rows [1200%Z; 900%Z] [14.8; 11.1] {[ 1200%Z := 40 ]} 900).
  - reflexivity.
  - right. left. reflexivity.
Defined.

(** X9: the table reads the current map at the listed KVs only: two maps
    that agree there give the same table, so an entry for an unlisted KV
    changes nothing. *)
Theorem table_reads_listed_kvs
    (kvs : list Z) (voltages : list Q) (m1 m2 : gmap Z Q) :
  (forall kv, In kv kvs -> m1 !! kv = m2 !! kv) ->
  calculate_motor_esc_params kvs voltages m1
  = calculate_motor_esc_params kvs voltages m2.
Proof.
  intros Hagree. rewrite !motor_esc_refines. unfold motorEscTable.
  apply map_ext_in. intros [kv v] Hin. apply in_prod_iff in Hin as [Hkv _].
  simpl. unfold spec_row, current_for. now rewrite (Hagree kv Hkv).
Qed.

Lemma table_reads_listed_kvs_witness :
  calculate_motor_esc_params [1200%Z] [14.8] {[ 1200%Z := 40 ]}
  = calculate_motor_esc_params [1200%Z] [14.8] (<[ 900%Z := 50 ]> {[ 1200%Z := 40 ]}).
Proof.
  apply table_reads_listed_kvs.
  intros kv [<-|[]]. reflexivity.
Defined.

End MotorEscMore.

(* ================================================================== *)
(** * More on the plane power estimate                                 *)
(* ================================================================== *)

Section PowerSystemMore.
Import Gui PowerSystem.

(** X10: the three thrust checks are nested for a non-negative weight: a
    plane that can hover can take off, and one that can take off can
    climb. *)
Theorem thrust_checks_nested (thrust plane_weight_g : Q) :
  0 <= plane_weight_g ->
  (hover (thrust_check thrust plane_weight_g) = true ->
   takeoff (thrust_check thrust plane_weight_g) = true)
  /\ (takeoff (thrust_check thrust plane_weight_g) = true ->
      climb (thrust_check thrust plane_weight_g) = true).
Proof.
  intros Hw. unfold thrust_check. simpl.
  destruct (gebP thrust plane_weight_g), (gebP thrust (0.5 * plane_weight_g)),
    (gebP thrust (0.33 * plane_weight_g)); split; trivial; intros; lra.
Qed.

Lemma thrust_checks_nested_witness :
  0 <= 1000 /\ takeoff (thrust_check 1200 1000) = true.
Proof.
  split; [lra|].
  apply (thrust_checks_nested 1200 1000); [lra | reflexivity].
Defined.

(** X11: a larger wingspan is never recommended a lower voltage, and the
    recommendation always lies between 11.1 V and 44.4 V. *)
Theorem voltage_monotone (cm cm' : Q) :
  cm <= cm' ->
  battery_voltage_from_wingspan_cm cm <= battery_voltage_from_wingspan_cm cm'
  /\ 11.1 <= battery_voltage_from_wingspan_cm cm
  /\ battery_voltage_from_wingspan_cm cm <= 44.4.
Proof.
  intros H. unfold battery_voltage_from_wingspan_cm.
  destruct (ltbP cm 100), (ltbP cm 140), (ltbP cm 175), (ltbP cm 215),
    (ltbP cm 245), (ltbP cm' 100), (ltbP cm' 140), (ltbP cm' 175),
    (ltbP cm' 215), (ltbP cm' 245);
    repeat apply conj; lra.
Qed.

Lemma voltage_monotone_witness :
  battery_voltage_from_wingspan_cm 120 <= battery_voltage_from_wingspan_cm 180.
Proof. apply (voltage_monotone 120 180). lra. Defined.

(** X12: for a non-negative weight the glider guideline is the lowest and
    the aerobatic one the highest, whatever the flight type; every type
    other than these two is sized as a trainer. *)
Theorem recommend_power_order (weight_kg : Q) (flight_type : string) :
  0 <= weight_kg ->
  recommend_power weight_kg "glider" <= recommend_power weight_kg flight_type
  /\ recommend_power weight_kg flight_type <= recommend_power weight_kg "aerobatic"
  /\ (flight_type <> "glider"%string -> flight_type <> "aerobatic"%string ->
      recommend_power weight_kg flight_type = recommend_power weight_kg "trainer").
Proof.
  intros Hw. unfold recommend_power. simpl.
  destruct (String.eqb_spec flight_type "glider") as [->|Hg]; simpl.
  - repeat apply conj; try lra. intros H. now destruct H.
  - destruct (String.eqb_spec flight_type "aerobatic") as [->|Ha]; simpl.
    + repeat apply conj; try lra. intros _ H. now destruct H.
    + repeat apply conj; try lra. reflexivity.
Qed.

Lemma recommend_power_order_witness :
  recommend_power 1.2 "glider" <= recommend_power 1.2 "trainer".
Proof. apply (recommend_power_order 1.2 "trainer"). lra. Defined.

(** X13: [_pct] accepts exactly the numbers of (0, 100]: zero, anything
    above 100, negative numbers and unreadable text all raise
    [ValueError]. *)
Theorem pct_accepts (widget : entry) (label : string) (val : Q) :
  (_pct widget label = Py.Ok val
   <-> widget = Numeral val /\ 0 < val /\ val <= 100)
  /\ (forall e, _pct widget label = Py.Raise e -> exists msg, e = Py.ValueError msg).
Proof.
  unfold _pct. split.
  - split.
    + destruct (_f widget label) as [v|e] eqn:Hf; simpl; [|discriminate].
      apply _f_ok in Hf as [-> _].
      destruct (ltbP 0 v), (lebP v 100); simpl; try discriminate.
      intros [= ->]. now repeat split.
    + intros (-> & Hpos & Hle). rewrite _f_numeral by lra. simpl.
      destruct (ltbP 0 val), (lebP val 100); simpl; trivial; lra.
  - intros e. destruct (_f widget label) as [v|e'] eqn:Hf; simpl.
    + destruct (negb _); [|discriminate]. intros [= <-]. eauto.
    + intros [= <-]. eapply _f_raises; eassumption.
Qed.

Lemma pct_accepts_witness :
  _pct (Numeral 85) "Efficiency (%)" = Py.Ok 85.
Proof.
  apply (pct_accepts (Numeral 85) "Efficiency (%)" 85).
  repeat apply conj; trivial; lra.
Defined.

(** X14: the discharge check is monotone: a pack that is safe for a load is
    safe for every smaller load, and stays safe with more capacity or a
    higher C rating. *)
Theorem discharge_check_monotone
    (capacity_mah c_rating load capacity_mah' c_rating' load' : Q) :
  0 <= capacity_mah -> 0 <= c_rating ->
  capacity_mah <= capacity_mah' -> c_rating <= c_rating' -> load' <= load ->
  battery_discharge_check capacity_mah c_rating load = true ->
  battery_discharge_check capacity_mah' c_rating' load' = true.
Proof.
  intros Hc Hr Hc' Hr' Hl. unfold battery_discharge_check.
  destruct (lebP load (capacity_mah * c_rating * 0.6 / 1000.0)) as [H|];
    [|discriminate].
  intros _.
  destruct (lebP load' (capacity_mah' * c_rating' * 0.6 / 1000.0)) as [|H'];
    [reflexivity|].
  exfalso. apply H'.
  assert (capacity_mah * c_rating <= capacity_mah' * c_rating').
  { apply Qle_trans with (capacity_mah * c_rating').
    - rewrite !(Qmult_comm capacity_mah). apply Qmult_le_compat_r; trivial.
    - apply Qmult_le_compat_r; [trivial | lra]. }
  assert (capacity_mah * c_rating * 0.6 / 1000.0
          <= capacity_mah' * c_rating' * 0.6 / 1000.0).
  { unfold Qdiv. apply Qmult_le_compat_r; [lra | discriminate]. }
  lra.
Qed.

Lemma discharge_check_monotone_witness :
  battery_discharge_check 2200 30 30 = true
  /\ battery_discharge_check 3000 30 25 = true.
Proof.
  split; [reflexivity|].
  apply (discharge_check_monotone 2200 30 30 3000 30 25);
    try lra; reflexivity.
Defined.

End PowerSystemMore.

Section PowerSystemHandler.
Import Gui PowerSystem.

Lemma _f_accepts (widget : entry) (label : string) (val : Q) :
  _f widget label = Py.Ok val <-> widget = Numeral val /\ 0 <= val.
Proof.
  split; [apply _f_ok|]. intros [-> H]. now apply _f_numeral.
Qed.

(** A field that [_f] refused is not an accepted one. *)
Ltac refused :=
  match goal with
  | E : ?w = Numeral ?q, H : _f ?w _ = Py.Raise _ |- _ =>
      rewrite E in H; rewrite _f_numeral in H by lra; discriminate
  end.

(** The two ways [_on_calculate] ends: with the ten rows for accepted
    inputs, behind an error box otherwise. *)
Lemma power_on_calculate_cases (self : PlanePowerCalculator) :
  (exists weight wingspan eff pitch rpm_ thrust max_i cap c_rate_,
     accepted self weight wingspan eff pitch rpm_ thrust max_i cap c_rate_
     /\ snd (_on_calculate self) = Done
     /\ status_bar (fst (_on_calculate self)) = Some "Calculated."%string
     /\ table (fst (_on_calculate self))
        = let input_power := recommend_power weight (flight_type self) in
          let t_eval := thrust_check thrust (weight * 1000.0) in
          [ ("Required input power (W)"%string, Fixed 1 input_power);
            ("Expected shaft output power (W)"%string,
             Fixed 1 (motor_efficiency_output input_power eff));
            ("Estimated motor weight (g)"%string,
             Fixed 1 (motor_weight_from_power input_power eff));
            ("Recommended battery voltage (V)"%string,
             Fixed 1 (battery_voltage_from_wingspan_cm wingspan));
            ("Static pitch speed (m/s)"%string, Fixed 2 (prop_pitch_speed pitch rpm_));
            ("Thrust: hover"%string, ok_no (hover t_eval));
            ("Thrust: takeoff"%string, ok_no (takeoff t_eval));
            ("Thrust: climb"%string, ok_no (climb t_eval));
            ("ESC recommendation (A)"%string, Fixed 1 (esc_rating max_i));
            ("Battery safe (continuous)"%string,
             ok_no (battery_discharge_check cap c_rate_ max_i)) ])
  \/ ((exists msg, _on_calculate self = (self, ErrorBox msg))
      /\ forall weight wingspan eff pitch rpm_ thrust max_i cap c_rate_,
           ~ accepted self weight wingspan eff pitch rpm_ thrust max_i cap c_rate_).
Proof.
  unfold _on_calculate, _pct.
  destruct (_f (weight_kg self) _) as [weight|e] eqn:H1; simpl;
    [|right; destruct (_f_raises _ _ _ H1) as [msg ->]; simpl;
      split; [eauto|]; intros ? ? ? ? ? ? ? ? ?;
      unfold accepted; intros Hacc; decompose [and] Hacc; refused].
  destruct (_f (wingspan_cm self) _) as [wingspan|e] eqn:H2; simpl;
    [|right; destruct (_f_raises _ _ _ H2) as [msg ->]; simpl;
      split; [eauto|]; intros ? ? ? ? ? ? ? ? ?;
      unfold accepted; intros Hacc; decompose [and] Hacc; refused].
  destruct (_f (efficiency_pct self) _) as [eff|e] eqn:H3; simpl;
    [|right; destruct (_f_raises _ _ _ H3) as [msg ->]; simpl;
      split; [eauto|]; intros ? ? ? ? ? ? ? ? ?;
      unfold accepted; intros Hacc; decompose [and] Hacc; refused].
  destruct (ltbP 0 eff) as [Heff0|Heff0], (lebP eff 100) as [Heff1|Heff1]; simpl;
    try (right; split; [eauto|]; intros ? ? e' ? ? ? ? ? ?;
         unfold accepted; intros Hacc; decompose [and] Hacc;
         apply _f_ok in H3 as [H3 _];
         match goal with
         | E : efficiency_pct self = Numeral e' |- _ =>
             rewrite E in H3; injection H3 as ->; lra
         end).
  destruct (_f (pitch_cm self) _) as [pitch|e] eqn:H4; simpl;
    [|right; destruct (_f_raises _ _ _ H4) as [msg ->]; simpl;
      split; [eauto|]; intros ? ? ? ? ? ? ? ? ?;
      unfold accepted; intros Hacc; decompose [and] Hacc; refused].
  destruct (_f (rpm self) _) as [rpm_|e] eqn:H5; simpl;
    [|right; destruct (_f_raises _ _ _ H5) as [msg ->]; simpl;
      split; [eauto|]; intros ? ? ? ? ? ? ? ? ?;
      unfold accepted; intros Hacc; decompose [and] Hacc; refused].
  destruct (_f (thrust_g self) _) as [thrust|e] eqn:H6; simpl;
    [|right; destruct (_f_raises _ _ _ H6) as [msg ->]; simpl;
      split; [eauto|]; intros ? ? ? ? ? ? ? ? ?;
      unfold accepted; intros Hacc; decompose [and] Hacc; refused].
  destruct (_f (max_current_a self) _) as [max_i|e] eqn:H7; simpl;
    [|right; destruct (_f_raises _ _ _ H7) as [msg ->]; simpl;
      split; [eauto|]; intros ? ? ? ? ? ? ? ? ?;
      unfold accepted; intros Hacc; decompose [and] Hacc; refused].
  destruct (_f (batt_capacity_mah self) _) as [cap|e] eqn:H8; simpl;
    [|right; destruct (_f_raises _ _ _ H8) as [msg ->]; simpl;
      split; [eauto|]; intros ? ? ? ? ? ? ? ? ?;
      unfold accepted; intros Hacc; decompose [and] Hacc; refused].
  destruct (_f (c_rate self) _) as [c_rate_|e] eqn:H9; simpl;
    [|right; destruct (_f_raises _ _ _ H9) as [msg ->]; simpl;
      split; [eauto|]; intros ? ? ? ? ? ? ? ? ?;
      unfold accepted; intros Hacc; decompose [and] Hacc; refused].
  left. exists weight, wingspan, eff, pitch, rpm_, thrust, max_i, cap, c_rate_.
  apply _f_ok in H1, H2, H3, H4, H5, H6, H7, H8, H9.
  unfold accepted. repeat apply conj; try tauto; reflexivity.
Qed.

Lemma recommend_power_nonneg (weight_kg : Q) (flight_type : string) :
  0 <= weight_kg -> 0 <= recommend_power weight_kg flight_type.
Proof.
  intros H. unfold recommend_power.
  destruct (String.eqb _ _); [lra|]. destruct (String.eqb _ _); lra.
Qed.

(** X15: in every estimate the window shows, the expected shaft output
    power lies between zero and the required input power. *)
Theorem shaft_power_within_input (self : PlanePowerCalculator) :
  snd (_on_calculate self) = Done ->
  exists input output,
    table (fst (_on_calculate self)) !! 0%nat
    = Some ("Required input power (W)"%string, Fixed 1 input)
    /\ table (fst (_on_calculate self)) !! 1%nat
       = Some ("Expected shaft output power (W)"%string, Fixed 1 output)
    /\ 0 <= output /\ output <= input.
Proof.
  intros Hdone.
  destruct (power_on_calculate_cases self)
    as [(weight & wingspan & eff & pitch & rpm_ & thrust & max_i & cap & c_rate_
         & Hacc & _ & _ & ->) | [[msg Herr] _]];
    [|rewrite Herr in Hdone; discriminate].
  destruct Hacc as ((_ & Hw) & _ & (_ & Heff0 & Heff1) & _).
  eexists _, _. split; [reflexivity|]. split; [reflexivity|].
  pose proof (recommend_power_nonneg weight (flight_type self) Hw) as Hin.
  unfold motor_efficiency_output.
  set (input := recommend_power weight (flight_type self)) in *.
  assert (0 <= eff / 100.0) by (apply Qle_shift_div_l; lra).
  assert (eff / 100.0 <= 1) by (apply Qle_shift_div_r; lra).
  assert (0 <= input * (eff / 100.0)) by (now apply Qmult_le_0_compat).
  assert (0 <= input * (1 - eff / 100.0)) by (apply Qmult_le_0_compat; lra).
  split; lra.
Qed.

(** The window of the worked example: 1.2 kg, 120 cm, a trainer. *)
Lemma example_plane_accepted :
  accepted
    {| weight_kg := Numeral 1.2; wingspan_cm := Numeral 120;
       flight_type := "trainer"; efficiency_pct := Numeral 85;
       pitch_cm := Numeral 15; rpm := Numeral 9000; thrust_g := Numeral 1500;
       max_current_a := Numeral 30; batt_capacity_mah := Numeral 2200;
       c_rate := Numeral 30; table := []; status_bar := None |}
    1.2 120 85 15 9000 1500 30 2200 30.
Proof. unfold accepted. simpl. repeat apply conj; trivial; lra. Qed.

Lemma shaft_power_within_input_witness :
  let self :=
    {| weight_kg := Numeral 1.2; wingspan_cm := Numeral 120;
       flight_type := "trainer"; efficiency_pct := Numeral 85;
       pitch_cm := Numeral 15; rpm := Numeral 9000; thrust_g := Numeral 1500;
       max_current_a := Numeral 30; batt_capacity_mah := Numeral 2200;
       c_rate := Numeral 30; table := []; status_bar := None |} in
  exists input output,
    table (fst (_on_calculate self)) !! 0%nat
    = Some ("Required input power (W)"%string, Fixed 1 input)
    /\ table (fst (_on_calculate self)) !! 1%nat
       = Some ("Expected shaft output power (W)"%string, Fixed 1 output)
    /\ 0 <= output /\ output <= input.
Proof.
  intros self. apply (shaft_power_within_input self). reflexivity.
Defined.

(** X16: [_on_calculate] ends normally exactly when all nine fields hold
    non-negative numbers and the efficiency lies in (0, 100]; it then shows
    ten rows and the status message.  Otherwise it ends behind an error box
    with the window, and so the previous result table, untouched; no
    exception escapes it. *)
Theorem power_on_calculate_accepts (self : PlanePowerCalculator) :
  (snd (_on_calculate self) = Done
   <-> exists weight wingspan eff pitch rpm_ thrust max_i cap c_rate_,
         accepted self weight wingspan eff pitch rpm_ thrust max_i cap c_rate_)
  /\ (snd (_on_calculate self) = Done ->
      length (table (fst (_on_calculate self))) = 10%nat
      /\ status_bar (fst (_on_calculate self)) = Some "Calculated."%string)
  /\ (snd (_on_calculate self) <> Done ->
      exists msg, _on_calculate self = (self, ErrorBox msg)).
Proof.
  destruct (power_on_calculate_cases self)
    as [(weight & wingspan & eff & pitch & rpm_ & thrust & max_i & cap & c_rate_
         & Hacc & Hdone & Hbar & Htable) | [[msg Herr] Hrej]].
  - split; [|split].
    + split; [|intros _; exact Hdone]. intros _.
      now exists weight, wingspan, eff, pitch, rpm_, thrust, max_i, cap, c_rate_.
    + intros _. rewrite Htable. split; [reflexivity | exact Hbar].
    + intros H. now destruct H.
  - rewrite Herr. simpl. split; [|split].
    + split; [discriminate|].
      intros (weight & wingspan & eff & pitch & rpm_ & thrust & max_i & cap
              & c_rate_ & Hacc).
      now destruct (Hrej _ _ _ _ _ _ _ _ _ Hacc).
    + discriminate.
    + intros _. eauto.
Qed.

Lemma power_on_calculate_accepts_witness :
  snd (_on_calculate
         {| weight_kg := Numeral 1.2; wingspan_cm := Numeral 120;
            flight_type := "trainer"; efficiency_pct := Numeral 85;
            pitch_cm := Numeral 15; rpm := Numeral 9000; thrust_g := Numeral 1500;
            max_current_a := Numeral 30; batt_capacity_mah := Numeral 2200;
            c_rate := Numeral 30; table := []; status_bar := None |}) = Done.
Proof.
  apply power_on_calculate_accepts.
  exists 1.2, 120, 85, 15, 9000, 1500, 30, 2200, 30.
  exact example_plane_accepted.
Defined.

(** X17: after [_on_clear] the table is empty and a calculation is refused
    at the first field: the error box asks for the weight and the window
    stays cleared. *)
Theorem clear_then_calculate (self : PlanePowerCalculator) :
  table (_on_clear self) = []
  /\ _on_calculate (_on_clear self)
     = (_on_clear self, ErrorBox "Weight (kg) is required.")
  /\ _on_clear (_on_clear self) = _on_clear self.
Proof. repeat apply conj; reflexivity. Qed.

End PowerSystemHandler.

(* ================================================================== *)
(** * More on the battery monitor simulator                            *)
(* ================================================================== *)

Section BatterySimMore.
Import Gui BatterySim.

(** ** The controls follow [running] *)

Lemma controls_pause (self : BatterySimWindow) :
  isActive (timer self) = running self
  /\ start_btn self = negb (running self)
  /\ pause_btn self = running self
  /\ inputs_enabled self = negb (running self) ->
  isActive (timer (_on_pause self)) = running (_on_pause self)
  /\ start_btn (_on_pause self) = negb (running (_on_pause self))
  /\ pause_btn (_on_pause self) = running (_on_pause self)
  /\ inputs_enabled (_on_pause self) = negb (running (_on_pause self)).
Proof.
  unfold _on_pause. destruct (running self) eqn:E; simpl; rewrite ?E; tauto.
Qed.

Lemma controls_tick (now u : Q) (self : BatterySimWindow) :
  isActive (timer self) = running self
  /\ start_btn self = negb (running self)
  /\ pause_btn self = running self
  /\ inputs_enabled self = negb (running self) ->
  let self' := fst (_on_tick now u self) in
  isActive (timer self') = running self'
  /\ start_btn self' = negb (running self')
  /\ pause_btn self' = running self'
  /\ inputs_enabled self' = negb (running self').
Proof.
  intros H. unfold _on_tick. simpl.
  destruct (attrs self); [|exact H].
  destruct (Py.geb _ _); [now apply controls_pause|].
  destruct (Py.ltb _ _); [exact H|].
  destruct (flight_time_left_min _ _); simpl; [|exact H].
  destruct (Py.leb _ _); simpl; [|exact H].
  now apply controls_pause.
Qed.

Lemma reachable_controls (t : Q) (self : BatterySimWindow) :
  reachable t self ->
  isActive (timer self) = running self
  /\ start_btn self = negb (running self)
  /\ pause_btn self = running self
  /\ inputs_enabled self = negb (running self).
Proof.
  induction 1 as [t Ht | t t' self _ IH Hle | t self e _ IH Hnow Hu];
    [now simpl | exact IH |].
  destruct e as [now| | |now u|f]; simpl.
  - destruct (start_btn self) eqn:E; simpl; [|rewrite E; exact IH].
    unfold _on_start.
    destruct (read_config self) as [[[[[cap samp] dur] lo] hi]|[]];
      simpl; rewrite ?E; trivial.
    repeat apply conj; reflexivity.
  - destruct (pause_btn self) eqn:E; simpl; [|rewrite E; exact IH].
    apply controls_pause. now rewrite E.
  - repeat apply conj; reflexivity.
  - destruct (isActive (timer self)) eqn:E; simpl; [|rewrite E; exact IH].
    apply controls_tick. now rewrite E.
  - destruct (inputs_enabled self) eqn:E; simpl; rewrite ?E; exact IH.
Qed.

(** The same over the runs whose starts complete, whatever the clock. *)
Lemma tick_keeps_attrs (now u : Q) (self : BatterySimWindow) :
  attrs (fst (_on_tick now u self)) = attrs self.
Proof.
  unfold _on_tick. simpl. destruct (attrs self) eqn:Ha; simpl; [|exact Ha].
  destruct (Py.geb _ _).
  { unfold _on_pause. simpl. now destruct (running self). }
  destruct (Py.ltb _ _); [exact Ha|].
  destruct (flight_time_left_min _ _); simpl; [|exact Ha].
  destruct (Py.leb _ _); simpl; [|exact Ha].
  unfold _on_pause. simpl. now destruct (running self).
Qed.

Lemma reached_controls (self : BatterySimWindow) :
  reached self ->
  (isActive (timer self) = running self
   /\ start_btn self = negb (running self)
   /\ pause_btn self = running self
   /\ inputs_enabled self = negb (running self))
  /\ (running self = true -> attrs self <> None).
Proof.
  induction 1 as [| self e _ [IH IHa] _]; [split; [now simpl | discriminate]|].
  destruct e as [now| | |now u|f]; simpl.
  - destruct (start_btn self) eqn:E; simpl; [|rewrite E; now split].
    unfold _on_start.
    destruct (read_config self) as [[[[[cap samp] dur] lo] hi]|[]];
      simpl; rewrite ?E; try (now split).
    split; [repeat apply conj; reflexivity|].
    intros _. destruct (running self); simpl;
      [|destruct (Py.eqb (start_time self) 0.0); simpl]; discriminate.
  - destruct (pause_btn self) eqn:E; simpl; [|rewrite E; now split].
    split; [apply controls_pause; now rewrite E|].
    unfold _on_pause.
    destruct (running self) eqn:R; simpl; rewrite ?R; [discriminate | exact IHa].
  - split; [repeat apply conj; reflexivity | discriminate].
  - destruct (isActive (timer self)) eqn:E; simpl; [|rewrite E; now split].
    split; [apply controls_tick; now rewrite E|].
    rewrite tick_keeps_attrs. intros _. apply IHa.
    destruct IH as (Ht & _). now rewrite <- Ht.
  - destruct (inputs_enabled self) eqn:E; simpl; rewrite ?E; now split.
Qed.

Lemma started_reached : reached (fst (_on_start 1000 __init__)).
Proof.
  change (reached (fst (handle (Click_start 1000) __init__))).
  apply reached_step; [exact reached_init|].
  intros now _ samp [= <-]. reflexivity.
Qed.

(** X18: along every run in which each start finds a sampling interval
    whose milliseconds fit the timer (sampling * 1000 < 2147483647), at any
    clock readings, the timer runs, the Pause button is enabled, the Start
    button is disabled and the inputs are locked exactly while the
    simulation is running.  So a running simulation ignores edits of the
    form and clicks on Start, and a stopped one ignores timeouts and clicks
    on Pause. *)
Theorem controls_follow_running
    (now u : Q) (f : Form) (self : BatterySimWindow) :
  reached self ->
  (isActive (timer self) = running self
   /\ start_btn self = negb (running self)
   /\ pause_btn self = running self
   /\ inputs_enabled self = negb (running self))
  /\ handle (Edit f) self = (if running self then self else set_form f self, Done)
  /\ handle (Click_start now) self
     = (if running self then (self, Done) else _on_start now self)
  /\ handle (Click_pause) self = (if running self then _on_pause self else self, Done)
  /\ handle (Timeout now u) self
     = (if running self then _on_tick now u self else (self, Done)).
Proof.
  intros Hreached.
  pose proof (reached_controls self Hreached) as [(Ht & Hs & Hp & Hi) _].
  split; [tauto|]. simpl. rewrite Ht, Hs, Hp, Hi.
  destruct (running self); repeat apply conj; reflexivity.
Qed.

Lemma controls_follow_running_witness :
  let self := fst (_on_start 1000 __init__) in
  handle (Edit (form __init__)) self
  = (if running self then self else set_form (form __init__) self, Done).
Proof.
  intros self.
  pose proof (controls_follow_running 1000 0.5 (form __init__) self
                started_reached) as H.
  destruct H as (_ & H & _). exact H.
Defined.

(** ** No handler crashes *)

(** X19: along every run in which each start finds a sampling interval
    whose milliseconds fit the timer, no event ends with an uncaught
    exception, the next one included when it is no start or a start with
    such an interval: [_on_tick] finds the attributes [_on_start] created
    and never divides by zero, and [_on_start] raises nothing but the
    [ValueError] it catches. *)
Theorem handlers_never_crash
    (self : BatterySimWindow) (e : event) (ex : Py.exn) :
  reached self ->
  (forall now, e = Click_start now -> startable self) ->
  snd (handle e self) <> Uncaught ex.
Proof.
  intros Hreached _.
  pose proof (reached_controls self Hreached) as [(Ht & _) Hattrs].
  destruct e as [now| | |now u|f]; simpl; try discriminate.
  - destruct (start_btn self); [|discriminate]. unfold _on_start.
    destruct (read_config self) as [[[[[cap samp] dur] lo] hi]|e'] eqn:Hrc;
      [discriminate|].
    destruct (read_config_raises _ _ Hrc) as [msg ->]. discriminate.
  - destruct (pause_btn self); discriminate.
  - destruct (isActive (timer self)) eqn:Hon; [|discriminate].
    unfold _on_tick. simpl.
    destruct (attrs self) as [a|]; [|destruct Hattrs; congruence].
    destruct (Py.geb _ _); [discriminate|].
    destruct (Py.ltb _ _); [discriminate|].
    match goal with |- context [flight_time_left_min ?r ?c] =>
      destruct (flight_time_left_min_cases r c) as [[_ ->]|[_ ->]] end;
      destruct (Py.leb _ _); discriminate.
  - destruct (inputs_enabled self); discriminate.
Qed.

Lemma handlers_never_crash_witness :
  snd (handle (Timeout 1001 0.5) (fst (_on_start 1000 __init__)))
  <> Uncaught Py.ZeroDivisionError.
Proof.
  apply handlers_never_crash; [exact started_reached | discriminate].
Defined.

(** ** Starting, resuming, depleting *)





(** X22: a sampling tick that uses up the effective capacity appends its
    row with a remaining capacity of zero (and an estimate of zero minutes
    when the current exceeds 0.1 A), then pauses the simulator under the
    depletion message; [last_time] is not advanced. *)
Theorem tick_depletes (now u : Q) (self : BatterySimWindow) (a : Attrs) :
  running self = true ->
  attrs self = Some a ->
  now - start_time self < sim_duration_s a ->
  sampling_interval_s a <= now - last_time self + 1e-9 ->
  let current_A := Py.uniform (i_min a) (i_max a) u in
  let consumed := consumed_mAh self
                  + current_A * ((now - last_time self) / 3600.0) * 1000.0 in
  effective_capacity_mAh self <= consumed ->
  let self' := fst (_on_tick now u self) in
  exists remaining eta,
    table self'
    = table self ++ [[Fixed 1 (now - start_time self); Fixed 2 current_A;
                      Fixed 1 consumed; Fixed 1 remaining; eta_cell eta]]
    /\ remaining == 0
    /\ (0.1 < current_A -> eta == 0)
    /\ consumed_mAh self' = consumed
    /\ running self' = false
    /\ isActive (timer self') = false
    /\ status_bar self' = Some "Battery effectively depleted."%string
    /\ last_time self' = last_time self.
Proof.
  intros Hrun Ha Hdur Hsamp current_A consumed Hempty self'. subst self'.
  unfold _on_tick. simpl. rewrite Ha.
  destruct (gebP (now - start_time self) (sim_duration_s a)); [lra|].
  destruct (ltbP (now - last_time self + 1e-9) (sampling_interval_s a)); [lra|].
  fold current_A. fold consumed.
  set (remaining := Py.max (effective_capacity_mAh self - consumed) 0.0).
  assert (Hrem : remaining == 0).
  { unfold remaining.
    destruct (max_cases (effective_capacity_mAh self - consumed) 0.0)
      as [[_ ->]|[? ->]]; lra. }
  destruct (flight_time_left_min_cases remaining current_A) as [[Hc ->]|[Hc ->]];
    (destruct (lebP remaining 0.0) as [_|Hpos]; [|destruct Hpos; lra]);
    unfold _on_pause; simpl; rewrite Hrun; simpl;
    eexists _, _; (split; [reflexivity|]); (split; [exact Hrem|]);
    (split; [|repeat apply conj; reflexivity]).
  - intros _. unfold Qdiv. rewrite Hrem. ring.
  - intros H. lra.
Qed.

Lemma tick_depletes_witness :
  let self :=
    fst (_on_start 1000
           (set_form {| capacity_mAh := Numeral 1; use_80 := true;
                        sampling_s := Numeral 0.1; duration_s := Numeral 120;
                        i_min_a := Numeral 2.0; i_max_a := Numeral 10.0 |}
                     __init__)) in
  running (fst (_on_tick 1001 0.5 self)) = false
  /\ status_bar (fst (_on_tick 1001 0.5 self))
     = Some "Battery effectively depleted."%string.
Proof.
  intros self.
  assert (Hrun : running self = true) by reflexivity.
  assert (Ha : attrs self = Some {| sampling_interval_s := 0.1; sim_duration_s := 120;
                                    i_min := 2.0; i_max := 10.0 |}) by reflexivity.
  pose proof (tick_depletes 1001 0.5 self _ Hrun Ha) as H.
  simpl in H.
  specialize (H ltac:(clear; vm_compute; reflexivity)
                ltac:(clear; vm_compute; discriminate)
                ltac:(clear; vm_compute; discriminate)).
  destruct H as (remaining & eta & _ & _ & _ & _ & Hr & _ & Hs & _).
  split; [exact Hr | exact Hs].
Defined.

(** X23: every sample of a run shows a current between the configured
    minimum and maximum, and so a non-negative one. *)
Theorem sample_current_within_bounds
    (now u : Q) (self : BatterySimWindow) (row : list shown) :
  reachable now self ->
  isActive (timer self) = true ->
  0 <= u -> u < 1 ->
  table (fst (_on_tick now u self)) = table self ++ [row] ->
  exists a current_A,
    attrs self = Some a
    /\ row_current row = Some current_A
    /\ 0 <= i_min a /\ i_min a <= current_A /\ current_A <= i_max a.
Proof.
  intros Hreach Hactive Hu0 Hu1 Hrow.
  pose proof (reachable_invariant now self Hreach) as (_ & _ & _ & _ & Hv & Hact & _).
  destruct (attrs self) as [a|] eqn:Ha; [|now destruct (Hact Hactive)].
  destruct (Hv a eq_refl) as (_ & _ & Hlo & Hhi).
  assert (Hsame : table (fst (_on_tick now u self)) = table self -> False).
  { intros E. rewrite E in Hrow. apply (f_equal (@length _)) in Hrow.
    rewrite length_app in Hrow. simpl in Hrow. lia. }
  destruct (Qlt_le_dec (now - start_time self) (sim_duration_s a)) as [Hdur|Hdur].
  - destruct (Qlt_le_dec (now - last_time self + 1e-9) (sampling_interval_s a))
      as [Hwait|Hsamp].
    + destruct Hsame. now rewrite (tick_waits now u self a Ha Hdur Hwait).
    + destruct (tick_samples now u self a Ha Hdur Hsamp) as (eta & _ & _ & Ht & _).
      rewrite Ht in Hrow. apply app_inv_head in Hrow. injection Hrow as <-.
      destruct (uniform_bounds (i_min a) (i_max a) u Hhi Hu0 Hu1) as [H1 H2].
      exists a, (Py.uniform (i_min a) (i_max a) u).
      repeat apply conj; trivial.
  - destruct Hsame.
    rewrite (tick_stops_on_duration now u self a Ha Hdur). simpl.
    now destruct (_on_pause_keeps
                    (showMessage "Reached simulation duration."
                       (set_total_elapsed_s (now - start_time self) self)))
      as (-> & _).
Qed.

Lemma sample_current_within_bounds_witness :
  let self := fst (_on_start 1000 __init__) in
  exists a current_A,
    attrs self = Some a
    /\ 0 <= i_min a /\ i_min a <= current_A /\ current_A <= i_max a.
Proof.
  intros self.
  assert (Hreach : reachable 1001 self).
  { apply (reach_wait 1000); [exact started_reachable | lra]. }
  assert (Hactive : isActive (timer self) = true) by reflexivity.
  assert (Hu0 : 0 <= 0.5) by (clear; lra).
  assert (Hu1 : 0.5 < 1) by (clear; lra).
  destruct (tick_samples 1001 0.5 self
              {| sampling_interval_s := 0.1; sim_duration_s := 120;
                 i_min := 2.0; i_max := 10.0 |} eq_refl
              ltac:(clear; vm_compute; reflexivity)
              ltac:(clear; vm_compute; discriminate))
    as (eta & _ & _ & Ht & _).
  pose proof (sample_current_within_bounds 1001 0.5 self _ Hreach Hactive Hu0 Hu1 Ht)
    as (a & c & Ha & Hc & Hb).
  exists a, c. split; [exact Ha | exact Hb].
Defined.

(** ** The time column *)






(** The run of two ticks again: its table shows the times 1 and 2. *)
Example two_ticks_times :
  map row_time
      (table (ticks [(1001, 0.5); (1002, 0.25)] (fst (_on_start 1000 __init__))))
  = [Some (1001 - 1000); Some (1002 - 1000)].
Proof. reflexivity. Qed.

(** With the clock set back during a pause the times do decrease: a start
    at 1000, a sample at 1001, a pause, a resume at 900 and a sample at
    900.2 leave the times 1 and -99.8. *)
Example clock_set_back_during_pause :
  let w1 := fst (handle (Timeout 1001 0.5) (fst (_on_start 1000 __init__))) in
  let w2 := fst (handle (Click_start 900) (fst (handle Click_pause w1))) in
  map row_time (table (fst (handle (Timeout 900.2 0.5) w2)))
  = [Some (1001 - 1000); Some (900.2 - 1000)].
Proof. reflexivity. Qed.

(** X25: the table cell and the status label always show the same
    estimate: the number below 9999 minutes and two dashes from 9999 on,
    also when the estimate was computed and is not the sentinel. *)
Theorem eta_texts_agree (eta : Q) :
  eta_label eta = eta_cell eta
  /\ eta_cell eta = (if Qlt_le_dec eta 9999 then Fixed 1 eta else Text "--").
Proof.
  unfold eta_label, eta_cell.
  destruct (ltbP eta 9999), (gebP eta 9999), (Qlt_le_dec eta 9999);
    try lra; split; reflexivity.
Qed.

(** An estimate that is no sentinel and still shown as dashes: 2 Ah left
    at 0.2 A are 600 minutes, 200 Ah are 60 000. *)
Example large_eta_shown_as_dashes :
  flight_time_left_min 200000 0.2 = Py.Ok (200000 / 1000.0 / 0.2 * 60.0)
  /\ eta_cell (200000 / 1000.0 / 0.2 * 60.0) = Text "--".
Proof. split; reflexivity. Qed.

Lemma tick_clock_set_back_witness :
  let self := fst (_on_start 1000 __init__) in
  table (fst (_on_tick 999 0.5 self)) = table self
  /\ consumed_mAh (fst (_on_tick 999 0.5 self)) = consumed_mAh self.
Proof.
  intros self.
  apply (tick_clock_set_back 999 0.5 self
           {| sampling_interval_s := 0.1; sim_duration_s := 120;
              i_min := 2.0; i_max := 10.0 |}).
  - reflexivity.
  - clear. simpl. lra.
  - clear. vm_compute. reflexivity.
Defined.

(** ** Pausing *)

(** X27: a click on Pause in a reachable window leaves it not running with
    the timer stopped and keeps everything accumulated; timeouts and further
    clicks on Pause then change nothing. *)
Theorem pause_freezes (t now u : Q) (self : BatterySimWindow) :
  reachable t self ->
  let paused := fst (handle Click_pause self) in
  running paused = false
  /\ isActive (timer paused) = false
  /\ (consumed_mAh paused, table paused, total_elapsed_s paused,
      start_time paused, last_time paused, effective_capacity_mAh paused)
     = (consumed_mAh self, table self, total_elapsed_s self,
        start_time self, last_time self, effective_capacity_mAh self)
  /\ handle (Timeout now u) paused = (paused, Done)
  /\ handle Click_pause paused = (paused, Done).
Proof.
  intros Hreach paused.
  pose proof (reachable_controls t self Hreach) as (Ht & Hs & Hp & Hi).
  subst paused. simpl. rewrite Hp. unfold _on_pause.
  destruct (running self) eqn:E; simpl; rewrite ?E, ?Ht, ?Hp; simpl;
    repeat apply conj; reflexivity.
Qed.

Lemma pause_freezes_witness :
  running (fst (handle Click_pause (fst (_on_start 1000 __init__)))) = false.
Proof.
  pose proof (pause_freezes 1000 1001 0.5 (fst (_on_start 1000 __init__))
                started_reachable) as H.
  destruct H as (H & _). exact H.
Defined.

End BatterySimMore.

Section MotorEscWitnesses.
Import MotorEsc.

Lemma esc_recommendation_margin_witness :
  List.Forall
    (fun r =>
       forall current, ({[ 1200%Z := 40 ]} : gmap Z Q) !! KV r = Some current ->
         (current * 1.2 - 0.5 <= inject_Z (ESC_Recommendation r)
          /\ inject_Z (ESC_Recommendation r) <= current * 1.2 + 0.5)
         /\ (2.5 <= current -> current <= inject_Z (ESC_Recommendation r)))
    (calculate_motor_esc_params [1200%Z] [14.8] {[ 1200%Z := 40 ]}).
Proof. exact (esc_recommendation_margin [1200%Z] [14.8] {[ 1200%Z := 40 ]}). Defined.

Lemma motor_table_empty_witness :
  calculate_motor_esc_params [1200%Z] [] {[ 1200%Z := 40 ]} = [].
Proof.
  apply (motor_table_empty [1200%Z] [] {[ 1200%Z := 40 ]}). now right.
Defined.

End MotorEscWitnesses.
